(** * Blood-pressure feature extraction ([src/data/bp_features.py])

    A shallow embedding of the waveform feature pipeline: peak detection and
    pairing ([get_sys_bp], [get_dias_bp]), mean arterial pressure
    ([calc_map]), sliding-window aggregation ([avg_bp]), the lookback
    feature ([create_lookback]) and the usability flag ([clean_bp_summary]).

    Conventions of the embedding.
    - A NumPy/Python float is a value of [Float.t]: an exact rational or one
      of the IEEE special values [+inf], [-inf], [nan].  Arithmetic on finite
      values is exact (binary64 rounding and the sign of zero are abstracted
      away); the special values follow the IEEE rules NumPy applies.
    - A Python [int] is a [Z].
    - A raised exception is the [Raise] branch of [result].
    - A [pandas.Timestamp] is a [Z] number of nanoseconds. *)

From Stdlib Require Import ZArith QArith Qround Lia Lqa.
From stdpp Require Import base option list strings pretty gmap sorting.

Local Open Scope Z_scope.

(** ** Exceptions and the error monad *)

Inductive exn : Type :=
  | ValueError
  | ZeroDivisionError
  | IndexError
  | KeyError.

Inductive result (A : Type) : Type :=
  | Ok (a : A)
  | Raise (e : exn).
Arguments Ok {A} a.
Arguments Raise {A} e.

#[global] Instance result_ret : MRet result := fun A a => Ok a.
#[global] Instance result_bind : MBind result := fun A B k m =>
  match m with
  | Ok a => k a
  | Raise e => Raise e
  end.

(** ** Floating-point values *)

Module Float.

Inductive t : Type :=
  | Fin (q : Q)
  | PInf
  | NInf
  | NaN.

Definition of_Z (z : Z) : t := Fin (inject_Z z).
Definition of_nat (n : nat) : t := of_Z (Z.of_nat n).

Definition Qltb (a b : Q) : bool := negb (Qle_bool b a).

Definition isnan (x : t) : bool :=
  match x with NaN => true | _ => false end.

Definition add (x y : t) : t :=
  match x, y with
  | NaN, _ | _, NaN => NaN
  | PInf, NInf | NInf, PInf => NaN
  | PInf, _ | _, PInf => PInf
  | NInf, _ | _, NInf => NInf
  | Fin a, Fin b => Fin (a + b)
  end.

(** [inf * 0] is [nan]; otherwise the sign of the product. *)
Definition scale_inf (pos : bool) (q : Q) : t :=
  if Qeq_bool q 0 then NaN
  else if Bool.eqb pos (Qltb 0 q) then PInf else NInf.

Definition mul (x y : t) : t :=
  match x, y with
  | NaN, _ | _, NaN => NaN
  | Fin a, Fin b => Fin (a * b)
  | PInf, Fin q | Fin q, PInf => scale_inf true q
  | NInf, Fin q | Fin q, NInf => scale_inf false q
  | PInf, PInf | NInf, NInf => PInf
  | PInf, NInf | NInf, PInf => NInf
  end.

(** NumPy division: a finite value over zero is a signed infinity, [0/0]
    is [nan], and neither raises. *)
Definition div (x y : t) : t :=
  match x, y with
  | NaN, _ | _, NaN => NaN
  | Fin a, Fin b =>
      if Qeq_bool b 0 then
        if Qeq_bool a 0 then NaN
        else if Qltb 0 a then PInf else NInf
      else Fin (a / b)
  | Fin _, (PInf | NInf) => Fin 0
  | PInf, Fin b => if Qltb b 0 then NInf else PInf
  | NInf, Fin b => if Qltb b 0 then PInf else NInf
  | (PInf | NInf), (PInf | NInf) => NaN
  end.

(** Comparisons: anything compared with [nan] is false. *)
Definition ltb (x y : t) : bool :=
  match x, y with
  | NaN, _ | _, NaN => false
  | Fin a, Fin b => Qltb a b
  | NInf, (Fin _ | PInf) => true
  | Fin _, PInf => true
  | _, _ => false
  end.

Definition leb (x y : t) : bool :=
  match x, y with
  | NaN, _ | _, NaN => false
  | Fin a, Fin b => Qle_bool a b
  | NInf, _ => true
  | _, PInf => true
  | _, _ => false
  end.

Definition eqb (x y : t) : bool :=
  match x, y with
  | Fin a, Fin b => Qeq_bool a b
  | PInf, PInf | NInf, NInf => true
  | _, _ => false
  end.

Definition geb (x y : t) : bool := leb y x.

(** [np.mean] of a one-dimensional sequence: the sum over the count; the
    mean of the empty sequence is [0/0 = nan]. *)
Definition sum (l : list t) : t := foldl add (Fin 0) l.
Definition mean (l : list t) : t := div (sum l) (of_nat (length l)).

End Float.

Coercion Float.of_Z : Z >-> Float.t.

(** ** Peak candidates *)

(** A candidate is [(position, magnitude)]: the sample label and the value
    of the series there. *)
Abbreviation peak := (Z * Float.t)%type.

(** The frame handed to the extractors: the index labels and the value
    array [df.values], kept column by column (every column as long as the
    index). *)
Record frame : Type := {
  index : list Z;
  columns : list (list Float.t);
}.

(** [df.values[:,k]]: NumPy raises [IndexError] when the array has no
    column [k]. *)
Definition values_col (df : frame) (k : nat) : result (list Float.t) :=
  match columns df !! k with
  | Some c => Ok c
  | None => Raise IndexError
  end.

(** [try: vals = df.values[:,0]  except: vals = df.values[:,1]] *)
Definition select_channel (df : frame) : result (list Float.t) :=
  match values_col df 0 with
  | Ok vals => Ok vals
  | Raise _ => values_col df 1
  end.

(** *** [scipy.signal.find_peaks] with no conditions

    With no optional argument [find_peaks] returns the result of
    [_local_maxima_1d]: the positions of all local maxima, a flat maximum
    being reported at the middle of its plateau (rounded down), the first
    and last samples never.  Both loops are those of the library; neither
    runs more often than the array is long. *)

Fixpoint plateau_scan (fuel : nat) (x : list Float.t) (xi : Float.t)
    (i_ahead i_max : nat) : nat :=
  match fuel with
  | O => i_ahead
  | S fuel' =>
      if decide (i_ahead < i_max)%nat then
        match x !! i_ahead with
        | Some v =>
            if Float.eqb v xi
            then plateau_scan fuel' x xi (i_ahead + 1) i_max
            else i_ahead
        | None => i_ahead
        end
      else i_ahead
  end.

Fixpoint local_maxima_loop (fuel : nat) (x : list Float.t) (i i_max : nat)
    (midpoints : list nat) : list nat :=
  match fuel with
  | O => midpoints
  | S fuel' =>
      if decide (i < i_max)%nat then
        match x !! (i - 1)%nat, x !! i with
        | Some prev, Some cur =>
            if Float.ltb prev cur then
              let i_ahead := plateau_scan (length x) x cur (i + 1) i_max in
              match x !! i_ahead with
              | Some nxt =>
                  if Float.ltb nxt cur then
                    local_maxima_loop fuel' x (i_ahead + 1) i_max
                      (midpoints ++ [((i + (i_ahead - 1)) / 2)%nat])
                  else local_maxima_loop fuel' x (i + 1) i_max midpoints
              | None => midpoints
              end
            else local_maxima_loop fuel' x (i + 1) i_max midpoints
        | _, _ => midpoints
        end
      else midpoints
  end.

Definition find_peaks (x : list Float.t) : list nat :=
  local_maxima_loop (length x) x 1 (length x - 1) [].

(** [[(i, v) for i, v in zip(df.index[peaks], vals[peaks])]]: the
    candidates at the detected positions, with the original labels and the
    original values. *)
Definition candidates_at (df : frame) (vals : list Float.t)
    (peaks : list nat) : list peak :=
  omap (fun p => i ← index df !! p; v ← vals !! p; Some (i, v)) peaks.

(** *** The pairing loop

    [i = 0; while (i+1) < len(max_values): ...; i += 2], appending to
    [only_sys] (resp. [only_dias]).  The loop runs at most
    [len(max_values)] times. *)
Fixpoint pairing_while (fuel : nat) (max_values : list peak) (i : nat)
    (only : list peak) : list peak :=
  match fuel with
  | O => only
  | S fuel' =>
      if decide (i + 1 < length max_values)%nat then
        match max_values !! i, max_values !! (i + 1)%nat with
        | Some a, Some b =>
            pairing_while fuel' max_values (i + 2)
              (only ++ [if Float.ltb a.2 b.2 then b else a])
        | _, _ => only
        end
      else only
  end.

Definition pair_candidates (max_values : list peak) : list peak :=
  pairing_while (length max_values) max_values 0 [].

(** The candidate lists ([max_values]) of the two extractors.  They differ
    only in the array handed to [find_peaks]: the values themselves, or
    their reciprocals [1 / vals]. *)
Definition reciprocal (vals : list Float.t) : list Float.t :=
  (fun v => Float.div (Float.of_Z 1) v) <$> vals.

Definition sys_candidates (df : frame) : result (list peak) :=
  vals ← select_channel df;
  mret (candidates_at df vals (find_peaks vals)).

Definition dias_candidates (df : frame) : result (list peak) :=
  vals ← select_channel df;
  mret (candidates_at df vals (find_peaks (reciprocal vals))).

Definition get_sys_bp (df : frame) : result (list peak) :=
  max_values ← sys_candidates df;
  mret (pair_candidates max_values).

Definition get_dias_bp (df : frame) : result (list peak) :=
  max_values ← dias_candidates df;
  mret (pair_candidates max_values).

(** ** Mean arterial pressure ([calc_map]) *)

(** NumPy's binary operation on two one-dimensional arrays: equal lengths
    go elementwise, a length-one operand is stretched, anything else is a
    [ValueError] (operands could not be broadcast together). *)
Definition broadcast2 (f : Float.t -> Float.t -> Float.t)
    (xs ys : list Float.t) : result (list Float.t) :=
  if decide (length xs = length ys) then Ok (zip_with f xs ys)
  else match xs, ys with
       | [x], _ => Ok (f x <$> ys)
       | _, [y] => Ok ((fun x => f x y) <$> xs)
       | _, _ => Raise ValueError
       end.

(** [np.mean([a, b], axis=0)]: the nested sequence has to be rectangular
    (a ragged one is a [ValueError] since NumPy 1.24; earlier releases
    only warned); the mean of the two rows is then taken position by
    position. *)
Definition mean_axis0 (a b : list Float.t) : result (list Float.t) :=
  if decide (length a = length b)
  then Ok (zip_with (fun s d => Float.div (Float.add s d) 2) a b)
  else Raise ValueError.

Definition map_formula (sbp dbp : Float.t) : Float.t :=
  Float.div (Float.add sbp (Float.mul 2 dbp)) 3.

Definition calc_map (sys dias : list peak)
    : result (list Float.t * list Float.t) :=
  let sbps := sys.*2 in
  let dbps := dias.*2 in
  let sidx := Float.of_Z <$> sys.*1 in
  let didx := Float.of_Z <$> dias.*1 in
  maps ← broadcast2 map_formula sbps dbps;
  indices ← mean_axis0 sidx didx;
  mret (indices, maps).

(** ** The waveform table and the sliding window ([avg_bp]) *)

(** One row of the waveform table: its index label, the [wave] id, the
    value of the selected channel ([waveform_type], "ABP" by default) and
    the timestamp [ts].  The table's index is increasing (the loader numbers
    the samples; rows may have been filtered out since), which is what makes
    a label slice [df.loc[a:b]] the rows with [a <= label <= b]. *)
Record sample : Type := {
  s_label : Z;
  s_wave : string;
  s_abp : Float.t;
  s_ts : Z;
}.

Definition waveform : Type := list sample.

(** [df.loc[lo:hi]]: a label slice keeps both ends. *)
Definition loc_slice (lo hi : Z) (df : waveform) : waveform :=
  filter (fun s => lo <= s_label s <= hi) df.

(** [df.loc[label, 'ts']]: [None] stands for the [KeyError] of a label that
    is not in the index. *)
Definition loc_ts (label : Z) (df : waveform) : option Z :=
  (fun p => s_ts p.2) <$> list_find (fun s => s_label s = label) df.

(** [x = df[[waveform_type]]] restricted to some rows: a one-column frame. *)
Definition channel (df : waveform) : frame :=
  {| index := s_label <$> df; columns := [s_abp <$> df] |}.

(** [range(start, stop, step)] *)
Definition py_range (start stop step : Z) : result (list Z) :=
  if decide (step = 0) then Raise ValueError
  else
    let n := if decide (0 < step)
             then (stop - start + step - 1) `div` step
             else (start - stop - step - 1) `div` (- step) in
    Ok ((fun k => start + step * Z.of_nat k) <$> seq 0 (Z.to_nat n)).

(** The row built for one window, before the labels are derived. *)
Record window_row : Type := {
  w_wave : string;
  w_start_window : Z;
  w_start_window_time : Z;
  w_end_window : Z;
  w_end_window_time : Z;
  w_avg_sys : Float.t;
  w_avg_dias : Float.t;
  w_avg_map : Float.t;
  w_all_values : list Float.t;
}.

(** A row of the summary table. *)
Record summary_row : Type := {
  wave : string;
  start_window : Z;
  end_window : Z;
  start_window_time : Z;
  end_window_time : Z;
  avg_sys : Float.t;
  avg_dias : Float.t;
  avg_map : Float.t;
  all_values : list Float.t;
  current_hypotensive : Z;
  hypotensive_in_15 : Float.t;
}.

(** A column appended to the summary table later on. *)
Inductive column : Type :=
  | IntCol (c : list Z)
  | FloatCol (c : list Float.t).

(** The summary table: its rows, indexed [0 .. N-1] after [reset_index],
    and the columns appended by name. *)
Record summary_df : Type := {
  sd_rows : list summary_row;
  sd_cols : gmap string column;
}.

(** [df["wave"].values[0]] *)
Definition first_wave (df : waveform) : result string :=
  match head df with
  | Some first => Ok (s_wave first)
  | None => Raise IndexError
  end.

(** The body of the [for cur_window in range(...)] loop: [Ok None] is the
    [continue] taken on [KeyError], [Ok (Some row)] the appended row. *)
Definition window_summary (df : waveform) (time_chunk cur_window : Z)
    : result (option window_row) :=
  let df_sub := loc_slice (cur_window - time_chunk) cur_window df in
  let x_sub := channel df_sub in
  sys_pressure ← get_sys_bp x_sub;
  dias_pressure ← get_dias_bp x_sub;
  let avg_sys := Float.mean (sys_pressure.*2) in
  let avg_dias := Float.mean (dias_pressure.*2) in
  let avg_maps := Float.div (Float.add avg_sys (Float.mul 2 avg_dias)) 3 in
  let all_values := s_abp <$> df_sub in
  wave0 ← first_wave df;
  match loc_ts (cur_window - time_chunk) df_sub, loc_ts cur_window df_sub with
  | Some t0, Some t1 =>
      mret (Some {| w_wave := wave0;
                    w_start_window := cur_window - time_chunk;
                    w_start_window_time := t0;
                    w_end_window := cur_window;
                    w_end_window_time := t1;
                    w_avg_sys := avg_sys;
                    w_avg_dias := avg_dias;
                    w_avg_map := avg_maps;
                    w_all_values := all_values |})
  | _, _ => mret None
  end.

Fixpoint window_loop (df : waveform) (time_chunk : Z) (windows : list Z)
    (new_df : list window_row) : result (list window_row) :=
  match windows with
  | [] => mret new_df
  | cur_window :: rest =>
      r ← window_summary df time_chunk cur_window;
      match r with
      | Some cur_row => window_loop df time_chunk rest (new_df ++ [cur_row])
      | None => window_loop df time_chunk rest new_df
      end
  end.

(** [np.where(new_df['avg_map'] <= 65, 1, 0)], one row at a time. *)
Definition hypotensive_flag (avg_map : Float.t) : Z :=
  if Float.leb avg_map 65 then 1 else 0.

(** [Series.shift(periods=-n)] on an integer column: every value moves [n]
    rows up, the vacated rows at the end are filled with [nan] and the
    column becomes a float column. *)
Definition shift_up (n : nat) (col : list Z) : list Float.t :=
  (Float.of_Z <$> drop n col) ++ replicate (length col `min` n) Float.NaN.

Definition label_row (w : window_row) (cur : Z) (ahead : Float.t)
    : summary_row :=
  {| wave := w_wave w;
     start_window := w_start_window w;
     end_window := w_end_window w;
     start_window_time := w_start_window_time w;
     end_window_time := w_end_window_time w;
     avg_sys := w_avg_sys w;
     avg_dias := w_avg_dias w;
     avg_map := w_avg_map w;
     all_values := w_all_values w;
     current_hypotensive := cur;
     hypotensive_in_15 := ahead |}.

Definition label_rows (new_df : list window_row) : list summary_row :=
  let current := (fun w => hypotensive_flag (w_avg_map w)) <$> new_df in
  let in_15 := shift_up 15 current in
  zip_with (fun w '(c, h) => label_row w c h) new_df (zip current in_15).

Definition samples_of (seconds : Z) : Z := (seconds * 1000) `div` 8.

(** [avg_bp(df, time_chunk, time_window)].  [new_df.sort_values(...)]
    returns a sorted copy that is dropped, so the rows stay in the order
    they were appended.  When no window added a row the time columns are
    absent, the column selection raises [KeyError] and the function returns
    [None]. *)
Definition window_ends (df : waveform) (time_chunk time_window : Z)
    : result (list Z) :=
  match head df, last df with
  | Some first, Some final =>
      let start_window := s_label first in
      let end_window := s_label final in
      py_range (start_window + samples_of time_chunk) end_window
        (samples_of time_window)
  | _, _ => Raise IndexError
  end.

Definition avg_bp (df : waveform) (time_chunk time_window : Z)
    : result (option summary_df) :=
  windows ← window_ends df time_chunk time_window;
  new_df ← window_loop df (samples_of time_chunk) windows [];
  match new_df with
  | [] => mret None
  | _ => mret (Some {| sd_rows := label_rows new_df; sd_cols := ∅ |})
  end.

(** ** The usability flag ([clean_bp_summary]) *)

Definition np_where (cond : list bool) (a b : Z) : list Z :=
  (fun c : bool => if c then a else b) <$> cond.

Definition clean_bp_summary (df : summary_df) : summary_df :=
  let good_sys := (fun r => Float.geb (avg_sys r) 30) <$> sd_rows df in
  let good_dias := (fun r => Float.geb (avg_dias r) 10) <$> sd_rows df in
  let has_outcome :=
    (fun r => negb (Float.isnan (hypotensive_in_15 r))) <$> sd_rows df in
  let include :=
    np_where (zip_with andb (zip_with andb good_sys good_dias) has_outcome) 1 0 in
  {| sd_rows := sd_rows df;
     sd_cols := <["include_in_model" := IntCol include]> (sd_cols df) |}.

(** ** The lookback feature ([create_lookback]) *)

(** [df.iloc[pos]]: a position from the end when negative, [IndexError]
    outside the table. *)
Definition iloc (df : summary_df) (pos : Z) : result summary_row :=
  let n := Z.of_nat (length (sd_rows df)) in
  let pos' := if decide (pos < 0) then n + pos else pos in
  if decide (0 <= pos') then
    match sd_rows df !! Z.to_nat pos' with
    | Some r => Ok r
    | None => Raise IndexError
    end
  else Raise IndexError.

(** [Timedelta.seconds]: the seconds field of the normalised difference
    (days, seconds, sub-second part), between 0 and 86399; the argument is
    the difference in nanoseconds. *)
Definition timedelta_seconds (d : Z) : Z := (d `div` 1000000000) `mod` 86400.

(** [int(x)] on a float: truncation toward zero. *)
Definition py_int (x : Q) : Z := Z.quot (Qnum x) (Zpos (Qden x)).

(** The [for index, row in df.iterrows()] loop; the row labels are
    [0 .. N-1], so [min(df.index)] is 0. *)
Fixpoint lookback_loop (df : summary_df) (n_skips : Q) (labels : list nat)
    (lb_array : list Float.t) : result (list Float.t) :=
  match labels with
  | [] => mret lb_array
  | index :: rest =>
      let lb_idx := py_int (inject_Z (Z.of_nat index) - n_skips)%Q in
      if decide (lb_idx < 0) then
        lookback_loop df n_skips rest (<[index := Float.NaN]> lb_array)
      else
        lookback ← iloc df lb_idx;
        lookback_loop df n_skips rest (<[index := avg_map lookback]> lb_array)
  end.

Definition lookback_column (time : Z) : string :=
  "lb_" +:+ pretty time +:+ "_map".

(** [create_lookback(df, time)], [time] an [int] number of minutes. *)
Definition create_lookback (df : summary_df) (time : Z) : result summary_df :=
  r1 ← iloc df 1;
  r0 ← iloc df 0;
  let time_diff := start_window_time r1 - start_window_time r0 in
  let time_diff : Q := (inject_Z (timedelta_seconds time_diff) / 60)%Q in
  if Float.Qltb (inject_Z time) time_diff then Raise ValueError
  else if Qeq_bool time_diff 0 then Raise ZeroDivisionError
  else
    let n_skips := (inject_Z time / time_diff)%Q in
    let n := length (sd_rows df) in
    lb_array ← lookback_loop df n_skips (seq 0 n) (replicate n (Float.of_Z 0));
    mret {| sd_rows := sd_rows df;
            sd_cols := <[lookback_column time := FloatCol lb_array]> (sd_cols df) |}.

(** ** Reference definitions and example inputs *)

(** The loop, read off the list two candidates at a time. *)
Fixpoint kept_of_pairs (l : list peak) : list peak :=
  match l with
  | a :: b :: rest => (if Float.ltb a.2 b.2 then b else a) :: kept_of_pairs rest
  | _ => []
  end.

(** The pairing rule in the specification's words: the larger magnitude
    wins and a tie goes to [b], the later candidate. *)
Definition spec_keep (a b : peak) : peak :=
  if Float.ltb b.2 a.2 then a else b.

(** A small summary row, for the examples: its start time in seconds, the
    three averages and the two labels. *)
Definition example_row (start_s : Z) (sys dias map : Float.t) (cur : Z)
    (ahead : Float.t) : summary_row :=
  {| wave := "a40439";
     start_window := start_s * 125;
     end_window := start_s * 125 + 7500;
     start_window_time := start_s * 1000000000;
     end_window_time := (start_s + 60) * 1000000000;
     avg_sys := sys; avg_dias := dias; avg_map := map;
     all_values := [];
     current_hypotensive := cur;
     hypotensive_in_15 := ahead |}.

(** A summary table as the aggregator returns it: no appended column. *)
Definition example_table (rows : list summary_row) : summary_df :=
  {| sd_rows := rows; sd_cols := ∅ |}.

(** The label of row [i]: the flag of the row 15 positions further down,
    [nan] when there is none. *)
Definition label_at (new_df : list window_row) (i : nat) : Float.t :=
  match new_df !! (i + 15)%nat with
  | Some w' => Float.of_Z (hypotensive_flag (w_avg_map w'))
  | None => Float.NaN
  end.

(** A waveform as the loader delivers it: samples numbered from 0, one
    every 8 ms. *)
Definition loaded (vals : list Float.t) : waveform :=
  imap (fun i v => {| s_label := Z.of_nat i; s_wave := "a40439";
                      s_abp := v; s_ts := Z.of_nat i * 8000000 |}) vals.

(** A recording of 2126 samples alternating between a diastolic and a
    systolic level, 80/120 at first and 40/80 from sample 1800 on. *)
Definition beat (i : nat) : Float.t :=
  if decide (i < 1800)%nat
  then (if Nat.even i then Float.of_Z 80 else Float.of_Z 120)
  else (if Nat.even i then Float.of_Z 40 else Float.of_Z 80).

(** The recording itself. *)
Definition example_waveform : waveform := loaded (beat <$> seq 0 2126).

(** Its summary with one-second windows every second: 16 rows. *)
Definition example_summary : summary_df :=
  match avg_bp example_waveform 1 1 with
  | Ok (Some tbl) => tbl
  | _ => example_table []
  end.

(** A flat recording with two dips, at samples 10 and 20. *)
Definition two_dips (i : nat) : Float.t :=
  if decide (i = 10 \/ i = 20)%nat then Float.of_Z 60 else Float.of_Z 90.

(** The value the loop stores for row [index]. *)
Definition lookback_target (df : summary_df) (n_skips : Q) (index : nat)
    : Float.t :=
  let lb_idx := py_int (inject_Z (Z.of_nat index) - n_skips)%Q in
  if decide (lb_idx < 0) then Float.NaN
  else match sd_rows df !! Z.to_nat lb_idx with
       | Some lookback => avg_map lookback
       | None => Float.NaN
       end.

(** The spacing the function computes from the first two rows, in
    minutes. *)
Definition computed_spacing (r0 r1 : summary_row) : Q :=
  (inject_Z (timedelta_seconds (start_window_time r1 - start_window_time r0))
   / 60)%Q.



(** Four rows two minutes apart, with [avg_map] 10, 20, 30, 40. *)
Definition two_minute_table : summary_df :=
  example_table
    [example_row 0 (Float.of_Z 20) (Float.of_Z 5) (Float.of_Z 10) 1 Float.NaN;
     example_row 120 (Float.of_Z 40) (Float.of_Z 10) (Float.of_Z 20) 1 Float.NaN;
     example_row 240 (Float.of_Z 60) (Float.of_Z 15) (Float.of_Z 30) 1 Float.NaN;
     example_row 360 (Float.of_Z 80) (Float.of_Z 20) (Float.of_Z 40) 1 Float.NaN].

(** Four rows five minutes apart, with [avg_map] 90, 80, 70, 60. *)
Definition five_minute_table : summary_df :=
  example_table
    [example_row 0 (Float.of_Z 120) (Float.of_Z 75) (Float.of_Z 90) 0 Float.NaN;
     example_row 300 (Float.of_Z 110) (Float.of_Z 65) (Float.of_Z 80) 0 Float.NaN;
     example_row 600 (Float.of_Z 100) (Float.of_Z 55) (Float.of_Z 70) 0 Float.NaN;
     example_row 900 (Float.of_Z 90) (Float.of_Z 45) (Float.of_Z 60) 1 Float.NaN].

(** Two rows exactly one day apart. *)
Definition day_apart_table : summary_df :=
  example_table
    [example_row 0 (Float.of_Z 120) (Float.of_Z 75) (Float.of_Z 90) 0 Float.NaN;
     example_row 86400 (Float.of_Z 110) (Float.of_Z 65) (Float.of_Z 80) 0
       Float.NaN].

(** Two rows one day and five minutes apart. *)
Definition day_and_five_minutes_table : summary_df :=
  example_table
    [example_row 0 (Float.of_Z 120) (Float.of_Z 75) (Float.of_Z 90) 0 Float.NaN;
     example_row 86700 (Float.of_Z 110) (Float.of_Z 65) (Float.of_Z 80) 0
       Float.NaN].

(** ** Joining two summaries ([merge_df]) *)

(** What [merge_df] ends in: the joined table, or the
    [UnboundLocalError] of reading the local [e] that no branch has
    assigned. *)
Inductive merge_result (A : Type) : Type :=
  | Merged (final_df : A)
  | UnboundLocalError.
Arguments Merged {A} final_df.
Arguments UnboundLocalError {A}.

(** [left.merge(right = ..., on = 'start_window')]: the inner join on the
    key column, in the order of the left rows, every left row with its
    matches in the order of the right rows.  The columns of the two sides
    (told apart by the suffixes) are kept as the pair of rows. *)
Definition merge_on {L R : Type} (key_l : L -> Z) (key_r : R -> Z)
    (left : list L) (right : list R) : list (L * R) :=
  l ← left; (fun r => (l, r)) <$> filter (fun r => key_r r = key_l l) right.

(** [merge_df(e_in, e_out, df_in, df_out)]: the text printed, and the
    result.  A row of the result is the pair of an output row and an input
    row together with its [waveform_id]. *)
Definition merge_df {I O : Type} (key_in : I -> Z) (key_out : O -> Z)
    (e_in e_out : string) (df_in : list I) (df_out : list O)
    : list string * merge_result (list (O * I * string)) :=
  let stdout :=
    if decide (e_in <> e_out)
    then ["mismatch ids " +:+ e_in +:+ " - " +:+ e_out]
    else [] in
  let final_df := merge_on key_out key_in df_out df_in in
  (stdout,
   if decide (e_in <> e_out) then UnboundLocalError
   else Merged ((fun row => (row, e_in)) <$> final_df)).

(** ** Timestamps of the samples ([format_df]) *)

(** [round], half to even, as [datetime.timedelta] rounds its argument to
    whole microseconds. *)
Definition round_half_even (q : Q) : Z :=
  let f := Qfloor q in
  let r := (q - inject_Z f)%Q in
  if Float.Qltb r (1 # 2) then f
  else if Float.Qltb (1 # 2) r then f + 1
  else if Z.even f then f else f + 1.

(** [datetime.timedelta(seconds=x)], in nanoseconds. *)
Definition timedelta_of_seconds (x : Q) : Z :=
  1000 * round_half_even (x * 1000000)%Q.

(** [df["time"] = df.index * 0.008] and
    [df["ts"] = base_datetime + timedelta(seconds=time)], row by row; the
    constant columns [age], [sex] and [clinical] the function also adds are
    not part of [sample]. *)
Definition format_df (base_datetime : Z) (df : waveform) : waveform :=
  (fun s =>
     let time := (inject_Z (s_label s) * (8 # 1000))%Q in
     {| s_label := s_label s; s_wave := s_wave s; s_abp := s_abp s;
        s_ts := base_datetime + timedelta_of_seconds time |}) <$> df.

(** ** Reference predicates *)

(** Position [m] of [x] is the middle of a flat local maximum: a stretch
    [l .. r] of equal samples inside the array, with a strictly smaller
    sample on either side. *)
Definition flat_maximum (x : list Float.t) (m : nat) : Prop :=
  exists (l r : nat) (v : Float.t),
    (1 <= l)%nat /\ (l <= r)%nat /\ (r + 1 < length x)%nat
    /\ m = ((l + r) / 2)%nat
    /\ x !! l = Some v
    /\ (exists p, x !! (l - 1)%nat = Some p /\ Float.ltb p v = true)
    /\ (exists n, x !! (r + 1)%nat = Some n /\ Float.ltb n v = true)
    /\ (forall j, (l < j <= r)%nat ->
          exists w, x !! j = Some w /\ Float.eqb w v = true).



(** Every label from the first to the last is in the index: the table
    has no gap. *)
Definition gapless (df : waveform) : Prop :=
  forall first final label,
    head df = Some first -> last df = Some final ->
    s_label first <= label <= s_label final ->
    exists s, s ∈ df /\ s_label s = label.

(** * Properties *)

(** ** Comparisons of float values *)

Module FloatFacts.

Lemma Qltb_false_le a b : Float.Qltb a b = false -> Qle_bool b a = true.
Proof. unfold Float.Qltb. by destruct (Qle_bool b a). Qed.

Lemma Qltb_true_le a b : Float.Qltb a b = true -> Qle_bool a b = true.
Proof.
  unfold Float.Qltb. intros H. apply Qle_bool_iff, Qlt_le_weak, Qnot_le_lt.
  intros Hle. apply Qle_bool_iff in Hle. rewrite Hle in H. discriminate.
Qed.

Lemma Qle_bool_refl a : Qle_bool a a = true.
Proof. apply Qle_bool_iff, Qle_refl. Qed.

Lemma leb_refl x : Float.isnan x = false -> Float.leb x x = true.
Proof. destruct x; simpl; try done. intros _. apply Qle_bool_refl. Qed.

Lemma ltb_true_leb x y : Float.ltb x y = true -> Float.leb x y = true.
Proof. destruct x, y; simpl; try done. apply Qltb_true_le. Qed.

Lemma ltb_false_leb x y :
  Float.isnan x = false -> Float.isnan y = false ->
  Float.ltb x y = false -> Float.leb y x = true.
Proof. destruct x, y; simpl; try done. intros _ _. apply Qltb_false_le. Qed.

(** A tie is never a strict inequality. *)
Lemma eqb_not_ltb x y : Float.eqb x y = true -> Float.ltb x y = false.
Proof.
  destruct x, y; simpl; try done. intros H%Qeq_bool_iff.
  unfold Float.Qltb. apply negb_false_iff, Qle_bool_iff.
  rewrite H. apply Qle_refl.
Qed.

Lemma ltb_asym x y : Float.ltb x y = true -> Float.ltb y x = false.
Proof.
  destruct x, y; simpl; try done. intros H%Qltb_true_le.
  unfold Float.Qltb. by rewrite H.
Qed.

(** [nan] is absorbing. *)
Lemma add_nan_l x : Float.add Float.NaN x = Float.NaN.
Proof. by destruct x. Qed.
Lemma add_nan_r x : Float.add x Float.NaN = Float.NaN.
Proof. by destruct x. Qed.
Lemma mul_nan_r x : Float.mul x Float.NaN = Float.NaN.
Proof. by destruct x. Qed.
Lemma div_nan_l x : Float.div Float.NaN x = Float.NaN.
Proof. by destruct x. Qed.
Lemma leb_nan_l x : Float.leb Float.NaN x = false.
Proof. by destruct x. Qed.

Lemma mean_nil : Float.mean [] = Float.NaN.
Proof. reflexivity. Qed.

End FloatFacts.

#[global] Arguments Float.add : simpl never.
#[global] Arguments Float.mul : simpl never.
#[global] Arguments Float.div : simpl never.
#[global] Arguments Float.mean : simpl never.
#[global] Arguments Float.ltb : simpl never.
#[global] Arguments Float.leb : simpl never.
#[global] Arguments Float.eqb : simpl never.

(** ** The pairing loop *)

Lemma pairing_while_drop fuel l i only :
  (length l <= i + 2 * fuel)%nat ->
  pairing_while fuel l i only = only ++ kept_of_pairs (drop i l).
Proof.
  revert i only. induction fuel as [|fuel IH]; intros i only Hlen; simpl.
  - rewrite drop_ge by lia. by rewrite app_nil_r.
  - case_decide as Hi.
    + destruct (lookup_lt_is_Some_2 l i) as [a Ha]; [lia|].
      destruct (lookup_lt_is_Some_2 l (i + 1)) as [b Hb]; [lia|].
      rewrite Ha, Hb, IH by lia.
      assert (l !! S i = Some b) as Hb' by (by rewrite <- Hb; f_equal; lia).
      rewrite (drop_S l a i Ha), (drop_S l b (S i) Hb').
      simpl. rewrite <- app_assoc. simpl.
      by replace (i + 2)%nat with (S (S i)) by lia.
    + destruct (drop i l) as [|a [|b rest]] eqn:Hd; simpl.
      * by rewrite app_nil_r.
      * by rewrite app_nil_r.
      * apply (f_equal length) in Hd. rewrite length_drop in Hd. simpl in Hd. lia.
Qed.

Lemma pair_candidates_kept l : pair_candidates l = kept_of_pairs l.
Proof.
  unfold pair_candidates. rewrite pairing_while_drop by lia. by rewrite drop_0.
Qed.

Lemma kept_of_pairs_length l : length (kept_of_pairs l) = (length l / 2)%nat.
Proof.
  induction l as [l IH] using (induction_ltof1 _ (@length _)).
  destruct l as [|a [|b rest]]; try done.
  simpl kept_of_pairs. simpl length. rewrite IH by (unfold ltof; simpl; lia).
  change (S (S (length rest))) with (1 * 2 + length rest)%nat.
  rewrite Nat.div_add_l by lia. lia.
Qed.

Lemma kept_of_pairs_lookup l k a b :
  l !! (2 * k)%nat = Some a -> l !! (2 * k + 1)%nat = Some b ->
  kept_of_pairs l !! k = Some (if Float.ltb a.2 b.2 then b else a).
Proof.
  revert l. induction k as [|k IH]; intros l Ha Hb.
  - destruct l as [|a' [|b' rest]]; simplify_eq/=. done.
  - replace (2 * S k)%nat with (S (S (2 * k))) in Ha by lia.
    replace (2 * S k + 1)%nat with (S (S (2 * k + 1))) in Hb by lia.
    destruct l as [|a' [|b' rest]]; try done.
    simpl kept_of_pairs. rewrite lookup_cons. by apply IH.
Qed.

(** C1, as stated, fails: on the tied pair of magnitudes [4, 4] the loop
    keeps the first candidate (the one at position 10), not the second; the
    test is [a < b], which a tie does not pass, and the [else] branch
    appends [a]. *)
Lemma pairing_tie_keeps_first_not_second :
  pair_candidates [(10, Float.of_Z 4); (20, Float.of_Z 4)]
    = [(10, Float.of_Z 4)]
  /\ pair_candidates [(10, Float.of_Z 4); (20, Float.of_Z 4)]
    <> [spec_keep (10, Float.of_Z 4) (20, Float.of_Z 4)].
Proof. split; [reflexivity | discriminate]. Qed.

(** C1, amended: the pairing step consumes the candidates two at a time in
    their original order, drops a final unpaired candidate, and from the
    [k]-th pair [(a, b)] keeps [b] when [a] is strictly smaller and [a]
    otherwise; so the larger magnitude is kept and a tie goes to [a], the
    earlier candidate. *)
Theorem pairing_keeps_larger_tie_first (max_values : list peak) (k : nat)
    (a b : peak) :
  max_values !! (2 * k)%nat = Some a ->
  max_values !! (2 * k + 1)%nat = Some b ->
  length (pair_candidates max_values) = (length max_values / 2)%nat
  /\ pair_candidates max_values !! k
       = Some (if Float.ltb a.2 b.2 then b else a)
  /\ (Float.ltb a.2 b.2 = true -> pair_candidates max_values !! k = Some b)
  /\ (Float.ltb b.2 a.2 = true -> pair_candidates max_values !! k = Some a)
  /\ (Float.eqb a.2 b.2 = true -> pair_candidates max_values !! k = Some a)
  /\ (Float.isnan a.2 = false -> Float.isnan b.2 = false ->
      exists kept, pair_candidates max_values !! k = Some kept
        /\ Float.leb a.2 kept.2 = true /\ Float.leb b.2 kept.2 = true).
Proof.
  intros Ha Hb. rewrite pair_candidates_kept.
  pose proof (kept_of_pairs_lookup _ _ _ _ Ha Hb) as Hk.
  split; [apply kept_of_pairs_length|]. split; [done|].
  rewrite Hk. repeat split.
  - by intros ->.
  - by intros ->%FloatFacts.ltb_asym.
  - by intros ->%FloatFacts.eqb_not_ltb.
  - intros Na Nb. eexists; split; [done|].
    destruct (Float.ltb a.2 b.2) eqn:E.
    + split; [by apply FloatFacts.ltb_true_leb | by apply FloatFacts.leb_refl].
    + split; [by apply FloatFacts.leb_refl | by apply FloatFacts.ltb_false_leb].
Qed.

Lemma pairing_keeps_larger_tie_first_witness :
  pair_candidates [(3, Float.of_Z 5); (7, Float.of_Z 3);
                   (11, Float.of_Z 4); (15, Float.of_Z 4);
                   (19, Float.of_Z 9)] !! 1%nat
    = Some (11, Float.of_Z 4).
Proof.
  apply (pairing_keeps_larger_tie_first
           [(3, Float.of_Z 5); (7, Float.of_Z 3); (11, Float.of_Z 4);
            (15, Float.of_Z 4); (19, Float.of_Z 9)]
           1 (11, Float.of_Z 4) (15, Float.of_Z 4));
    reflexivity.
Defined.

(** ** Mean arterial pressure *)

Lemma zip_with_lookup_both {A B C} (f : A -> B -> C) (xs : list A)
    (ys : list B) i x y :
  xs !! i = Some x -> ys !! i = Some y -> zip_with f xs ys !! i = Some (f x y).
Proof. intros Hx Hy. rewrite lookup_zip_with, Hx, Hy. done. Qed.



(** Where one of two different lengths is 1 the magnitudes are stretched,
    and it is the ragged [[sidx, didx]] that is refused. *)
Lemma calc_map_ragged_positions (sys dias : list peak) :
  length sys <> length dias -> calc_map sys dias = Raise ValueError.
Proof.
  intros Hlen. unfold calc_map, broadcast2, mean_axis0.
  rewrite !length_fmap. rewrite !decide_False by done.
  by repeat case_match.
Qed.

(** ** The usability flag *)

Lemma np_where_and3_lookup {A} (f1 f2 f3 : A -> bool) (rows : list A) i r :
  rows !! i = Some r ->
  np_where (zip_with andb (zip_with andb (f1 <$> rows) (f2 <$> rows))
              (f3 <$> rows)) 1 0 !! i
    = Some (if f1 r && f2 r && f3 r then 1 else 0).
Proof.
  intros Hr. unfold np_where. rewrite list_lookup_fmap.
  rewrite (zip_with_lookup_both andb _ _ i (f1 r && f2 r) (f3 r)); [done| |].
  - apply zip_with_lookup_both; by rewrite list_lookup_fmap, Hr.
  - by rewrite list_lookup_fmap, Hr.
Qed.

(** C8: the cleaner sets [include_in_model] to 1 exactly on the rows with
    [avg_sys >= 30], [avg_dias >= 10] and a [hypotensive_in_15] that is not
    missing, and to 0 on all others; a row with [avg_sys = 29.9] gets 0
    whatever its other fields, a row with [avg_sys = 30], [avg_dias = 10]
    and [hypotensive_in_15 = 1] gets 1. *)
Theorem clean_bp_summary_flag (df : summary_df) :
  sd_rows (clean_bp_summary df) = sd_rows df
  /\ exists include,
       sd_cols (clean_bp_summary df) !! "include_in_model"
         = Some (IntCol include)
       /\ length include = length (sd_rows df)
       /\ forall i r, sd_rows df !! i = Some r ->
            include !! i
              = Some (if Float.geb (avg_sys r) (Float.of_Z 30)
                         && Float.geb (avg_dias r) (Float.of_Z 10)
                         && negb (Float.isnan (hypotensive_in_15 r))
                      then 1 else 0)
            /\ (avg_sys r = Float.Fin (299 # 10) -> include !! i = Some 0)
            /\ (avg_sys r = Float.of_Z 30 -> avg_dias r = Float.of_Z 10 ->
                hypotensive_in_15 r = Float.of_Z 1 -> include !! i = Some 1).
Proof.
  split; [done|]. unfold clean_bp_summary; simpl.
  eexists. split; [apply lookup_insert_eq|].
  split.
  { unfold np_where. rewrite length_fmap, !length_zip_with, !length_fmap. lia. }
  intros i r Hr.
  rewrite (np_where_and3_lookup _ _ _ _ i r Hr).
  split; [done|]. split.
  - by intros ->.
  - by intros -> -> ->.
Qed.

Lemma clean_bp_summary_flag_witness :
  exists include,
    sd_cols (clean_bp_summary (example_table
      [example_row 0 (Float.Fin (299 # 10)) (Float.of_Z 70) (Float.of_Z 80)
         0 (Float.of_Z 0);
       example_row 60 (Float.of_Z 30) (Float.of_Z 10) (Float.Fin (50 # 3))
         1 (Float.of_Z 1)])) !! "include_in_model" = Some (IntCol include)
    /\ include !! 0%nat = Some 0 /\ include !! 1%nat = Some 1.
Proof.
  destruct (clean_bp_summary_flag (example_table
      [example_row 0 (Float.Fin (299 # 10)) (Float.of_Z 70) (Float.of_Z 80)
         0 (Float.of_Z 0);
       example_row 60 (Float.of_Z 30) (Float.of_Z 10) (Float.Fin (50 # 3))
         1 (Float.of_Z 1)])) as [_ (include & Hcol & _ & Hrow)].
  exists include. split; [exact Hcol|]. split.
  - eapply (Hrow 0%nat); reflexivity.
  - eapply (Hrow 1%nat); reflexivity.
Defined.

(** ** The window loop *)

Lemma get_sys_bp_channel (d : waveform) :
  get_sys_bp (channel d)
  = Ok (pair_candidates
          (candidates_at (channel d) (s_abp <$> d)
             (find_peaks (s_abp <$> d)))).
Proof. reflexivity. Qed.

Lemma get_dias_bp_channel (d : waveform) :
  get_dias_bp (channel d)
  = Ok (pair_candidates
          (candidates_at (channel d) (s_abp <$> d)
             (find_peaks (reciprocal (s_abp <$> d))))).
Proof. reflexivity. Qed.

(** What an appended row holds. *)
Lemma window_summary_Some df time_chunk cur w :
  window_summary df time_chunk cur = Ok (Some w) ->
  let df_sub := loc_slice (cur - time_chunk) cur df in
  w_start_window w = cur - time_chunk
  /\ w_end_window w = cur
  /\ loc_ts (cur - time_chunk) df_sub = Some (w_start_window_time w)
  /\ loc_ts cur df_sub = Some (w_end_window_time w)
  /\ (exists sys, get_sys_bp (channel df_sub) = Ok sys
        /\ w_avg_sys w = Float.mean sys.*2)
  /\ (exists dias, get_dias_bp (channel df_sub) = Ok dias
        /\ w_avg_dias w = Float.mean dias.*2)
  /\ w_avg_map w
     = Float.div (Float.add (w_avg_sys w)
                    (Float.mul (Float.of_Z 2) (w_avg_dias w))) (Float.of_Z 3)
  /\ w_all_values w = s_abp <$> df_sub.
Proof.
  unfold window_summary. rewrite get_sys_bp_channel, get_dias_bp_channel.
  simpl. unfold first_wave. destruct (head df); simpl; [|done].
  destruct (loc_ts (cur - time_chunk) _) as [t0|] eqn:E0; [|done].
  destruct (loc_ts cur _) as [t1|] eqn:E1; [|done].
  intros [= <-]. cbn [w_start_window w_end_window w_start_window_time
    w_end_window_time w_avg_sys w_avg_dias w_avg_map w_all_values].
  repeat split; try done.
  - eexists; split; [apply get_sys_bp_channel|done].
  - eexists; split; [apply get_dias_bp_channel|done].
Qed.

(** Every row of the loop's result was there before or was built for one of
    the window positions, and every row built is in the result. *)
Lemma window_loop_sound df time_chunk windows new_df out :
  window_loop df time_chunk windows new_df = Ok out ->
  forall w, w ∈ out ->
    w ∈ new_df
    \/ exists cur, cur ∈ windows
         /\ window_summary df time_chunk cur = Ok (Some w).
Proof.
  revert new_df. induction windows as [|cur rest IH]; intros new_df; simpl.
  - intros [= <-] w Hw. by left.
  - destruct (window_summary df time_chunk cur) as [[cur_row|]|] eqn:E;
      simpl; [| |done]; intros Hloop w Hw.
    + destruct (IH _ Hloop w Hw) as [Hin|(c & Hc & Hs)].
      * apply elem_of_app in Hin as [Hin|Hin%list_elem_of_singleton]; [by left|].
        subst. right. exists cur. split; [left|done].
      * right. exists c. split; [by right|done].
    + destruct (IH _ Hloop w Hw) as [Hin|(c & Hc & Hs)]; [by left|].
      right. exists c. split; [by right|done].
Qed.

Lemma window_loop_keeps df time_chunk windows new_df out :
  window_loop df time_chunk windows new_df = Ok out ->
  forall w, w ∈ new_df -> w ∈ out.
Proof.
  revert new_df. induction windows as [|cur rest IH]; intros new_df; simpl.
  - by intros [= <-].
  - destruct (window_summary df time_chunk cur) as [[cur_row|]|] eqn:E;
      simpl; [| |done]; intros Hloop w Hw; eapply IH; eauto.
    apply elem_of_app. by left.
Qed.

Lemma window_loop_complete df time_chunk windows new_df out :
  window_loop df time_chunk windows new_df = Ok out ->
  forall cur w, cur ∈ windows ->
    window_summary df time_chunk cur = Ok (Some w) -> w ∈ out.
Proof.
  revert new_df. induction windows as [|c rest IH]; intros new_df; simpl.
  - intros _ cur w Hin. by apply elem_of_nil in Hin.
  - intros Hloop cur w Hin Hs. apply elem_of_cons in Hin as [->|Hin].
    + rewrite Hs in Hloop. simpl in Hloop.
      eapply window_loop_keeps; [exact Hloop|].
      apply elem_of_app. right. by apply list_elem_of_singleton.
    + destruct (window_summary df time_chunk c) as [[cur_row|]|];
        simpl in Hloop; [| |done]; eapply IH; eauto.
Qed.

(** *** The labels *)

Lemma shift_up_length n col : length (shift_up n col) = length col.
Proof.
  unfold shift_up. rewrite length_app, length_fmap, length_drop, length_replicate.
  lia.
Qed.

Lemma shift_up_lookup n col i :
  (i < length col)%nat ->
  shift_up n col !! i
  = Some (match col !! (i + n)%nat with
          | Some v => Float.of_Z v
          | None => Float.NaN
          end).
Proof.
  intros Hi. unfold shift_up.
  destruct (decide (i + n < length col)%nat) as [Hin|Hin].
  - rewrite lookup_app_l by (rewrite length_fmap, length_drop; lia).
    rewrite list_lookup_fmap, lookup_drop.
    replace (n + i)%nat with (i + n)%nat by lia.
    destruct (lookup_lt_is_Some_2 col (i + n)%nat Hin) as [v ->]. done.
  - rewrite lookup_app_r by (rewrite length_fmap, length_drop; lia).
    rewrite (lookup_ge_None_2 col (i + n)) by lia.
    rewrite length_fmap, length_drop. apply lookup_replicate_2. lia.
Qed.

Lemma label_rows_length new_df : length (label_rows new_df) = length new_df.
Proof.
  unfold label_rows.
  rewrite length_zip_with, length_zip, shift_up_length, !length_fmap. lia.
Qed.

Lemma label_rows_lookup new_df i :
  label_rows new_df !! i
  = (fun w => label_row w (hypotensive_flag (w_avg_map w)) (label_at new_df i))
      <$> new_df !! i.
Proof.
  unfold label_rows. rewrite lookup_zip_with.
  destruct (new_df !! i) as [w|] eqn:Hw; simpl; [|done].
  pose proof (lookup_lt_Some _ _ _ Hw) as Hi.
  set (current := (fun w => hypotensive_flag (w_avg_map w)) <$> new_df).
  assert (zip current (shift_up 15 current) !! i
          = Some (hypotensive_flag (w_avg_map w), label_at new_df i)) as ->.
  { unfold zip. apply zip_with_lookup_both.
    - unfold current. by rewrite list_lookup_fmap, Hw.
    - rewrite shift_up_lookup by (unfold current; by rewrite length_fmap).
      unfold current, label_at. rewrite list_lookup_fmap.
      by destruct (new_df !! (i + 15)%nat). }
  done.
Qed.

Lemma avg_bp_Some df time_chunk time_window tbl :
  avg_bp df time_chunk time_window = Ok (Some tbl) ->
  exists windows new_df,
    window_ends df time_chunk time_window = Ok windows
    /\ window_loop df (samples_of time_chunk) windows [] = Ok new_df
    /\ tbl = {| sd_rows := label_rows new_df; sd_cols := ∅ |}.
Proof.
  unfold avg_bp.
  destruct (window_ends df time_chunk time_window) as [windows|]; [|done].
  simpl. destruct (window_loop _ _ _ _) as [new_df|] eqn:Hloop; [|done].
  simpl. destruct new_df as [|w new_df]; [done|]. intros [= <-].
  by exists windows, (w :: new_df).
Qed.

(** Every row of the table is the labelled row of one window position. *)
Lemma avg_bp_row df time_chunk time_window tbl i r :
  avg_bp df time_chunk time_window = Ok (Some tbl) ->
  sd_rows tbl !! i = Some r ->
  exists windows new_df w cur,
    window_ends df time_chunk time_window = Ok windows
    /\ sd_rows tbl = label_rows new_df
    /\ new_df !! i = Some w
    /\ r = label_row w (hypotensive_flag (w_avg_map w)) (label_at new_df i)
    /\ cur ∈ windows
    /\ window_summary df (samples_of time_chunk) cur = Ok (Some w).
Proof.
  intros (windows & new_df & Hends & Hloop & ->)%avg_bp_Some Hr.
  simpl in Hr. rewrite label_rows_lookup in Hr.
  destruct (new_df !! i) as [w|] eqn:Hw; [|done]. injection Hr as <-.
  destruct (window_loop_sound _ _ _ _ _ Hloop w) as [Hin|(cur & Hcur & Hs)].
  { by eapply list_elem_of_lookup_2. }
  { by apply elem_of_nil in Hin. }
  by exists windows, new_df, w, cur.
Qed.

(** C4: in a table of [N] rows produced by the aggregator the label
    [hypotensive_in_15] of row [i] is [current_hypotensive] of row [i+15]
    when that row exists ([i + 15 < N]), and is missing ([nan]) otherwise,
    that is on the final 15 rows. *)
Theorem hypotensive_in_15_is_row_15_ahead df time_chunk time_window tbl i r :
  avg_bp df time_chunk time_window = Ok (Some tbl) ->
  sd_rows tbl !! i = Some r ->
  hypotensive_in_15 r
  = match sd_rows tbl !! (i + 15)%nat with
    | Some r' => Float.of_Z (current_hypotensive r')
    | None => Float.NaN
    end.
Proof.
  intros Havg Hr.
  destruct (avg_bp_row _ _ _ _ _ _ Havg Hr)
    as (windows & new_df & w & cur & _ & -> & Hw & -> & _).
  rewrite label_rows_lookup. simpl. unfold label_at.
  by destruct (new_df !! (i + 15)%nat).
Qed.


(** *** The window positions *)

Lemma py_range_elem start stop step ws w :
  py_range start stop step = Ok ws -> w ∈ ws ->
  exists k : nat, w = start + step * Z.of_nat k
    /\ (0 < step -> start <= w < stop).
Proof.
  unfold py_range. case_decide as Hz; [done|]. intros [= <-] Hin.
  apply list_elem_of_fmap in Hin as (k & -> & Hk).
  exists k. split; [done|]. intros Hpos.
  rewrite decide_True in Hk by done.
  apply elem_of_seq in Hk as [_ Hk]. simpl in Hk.
  assert (Z.of_nat k < (stop - start + step - 1) `div` step) as Hlt by lia.
  pose proof (Z.mul_div_le (stop - start + step - 1) step Hpos).
  nia.
Qed.

Lemma samples_of_exact seconds : samples_of seconds = seconds * 125.
Proof.
  unfold samples_of. replace (seconds * 1000) with (seconds * 125 * 8) by lia.
  apply Z.div_mul. lia.
Qed.



Lemma example_summary_run :
  avg_bp example_waveform 1 1 = Ok (Some example_summary).
Proof. vm_compute. reflexivity. Qed.

Lemma hypotensive_in_15_is_row_15_ahead_witness :
  exists r r',
    sd_rows example_summary !! 0%nat = Some r
    /\ sd_rows example_summary !! 15%nat = Some r'
    /\ current_hypotensive r = 0 /\ current_hypotensive r' = 1
    /\ hypotensive_in_15 r = Float.of_Z (current_hypotensive r').
Proof.
  eexists _, _. split; [vm_compute; reflexivity|].
  split; [vm_compute; reflexivity|]. split; [reflexivity|].
  split; [reflexivity|].
  etrans.
  - apply (hypotensive_in_15_is_row_15_ahead example_waveform 1 1
             example_summary 0); [apply example_summary_run|].
    vm_compute; reflexivity.
  - vm_compute; reflexivity.
Defined.



(** ** Windows with fewer than two candidates *)

Lemma pair_candidates_short l : (length l < 2)%nat -> pair_candidates l = [].
Proof.
  rewrite pair_candidates_kept. destruct l as [|a [|b rest]]; simpl; [done..|lia].
Qed.

Lemma sys_candidates_channel (d : waveform) :
  sys_candidates (channel d)
  = Ok (candidates_at (channel d) (s_abp <$> d) (find_peaks (s_abp <$> d))).
Proof. reflexivity. Qed.

Lemma dias_candidates_channel (d : waveform) :
  dias_candidates (channel d)
  = Ok (candidates_at (channel d) (s_abp <$> d)
          (find_peaks (reciprocal (s_abp <$> d)))).
Proof. reflexivity. Qed.

(** On a non-empty table the loop body never raises, and so neither does
    the loop. *)
Lemma window_summary_total df first time_chunk cur :
  head df = Some first ->
  exists o, window_summary df time_chunk cur = Ok o.
Proof.
  intros Hd. unfold window_summary.
  rewrite get_sys_bp_channel, get_dias_bp_channel. simpl.
  unfold first_wave. rewrite Hd. simpl.
  repeat case_match; eauto.
Qed.

Lemma window_loop_total df first time_chunk windows new_df :
  head df = Some first ->
  exists out, window_loop df time_chunk windows new_df = Ok out.
Proof.
  intros Hd. revert new_df.
  induction windows as [|cur rest IH]; intros new_df; simpl; [eauto|].
  destruct (window_summary_total df first time_chunk cur Hd) as [[w|] ->];
    simpl; apply IH.
Qed.

Lemma window_ends_head df time_chunk time_window windows :
  window_ends df time_chunk time_window = Ok windows ->
  exists first, head df = Some first.
Proof. unfold window_ends. destruct (head df); [eauto|done]. Qed.

(** A window short of candidates built the row without one of its means. *)
Lemma window_summary_short df time_chunk cur w sc dc :
  window_summary df time_chunk cur = Ok (Some w) ->
  sys_candidates (channel (loc_slice (cur - time_chunk) cur df)) = Ok sc ->
  dias_candidates (channel (loc_slice (cur - time_chunk) cur df)) = Ok dc ->
  ((length sc < 2)%nat -> w_avg_sys w = Float.NaN /\ w_avg_map w = Float.NaN)
  /\ ((length dc < 2)%nat ->
      w_avg_dias w = Float.NaN /\ w_avg_map w = Float.NaN).
Proof.
  intros Hs Hsc Hdc.
  apply window_summary_Some in Hs
    as (_ & _ & _ & _ & (sys & Hsys & Hasys) & (dias & Hdias & Hadias)
        & Hmap & _).
  rewrite get_sys_bp_channel in Hsys. rewrite get_dias_bp_channel in Hdias.
  rewrite sys_candidates_channel in Hsc.
  rewrite dias_candidates_channel in Hdc.
  injection Hsys as <-. injection Hdias as <-.
  injection Hsc as <-. injection Hdc as <-.
  split; intros Hshort.
  - assert (w_avg_sys w = Float.NaN) as E
      by (by rewrite Hasys, pair_candidates_short).
    split; [done|]. rewrite Hmap, E, FloatFacts.add_nan_l.
    apply FloatFacts.div_nan_l.
  - assert (w_avg_dias w = Float.NaN) as E
      by (by rewrite Hadias, pair_candidates_short).
    split; [done|].
    rewrite Hmap, E, FloatFacts.mul_nan_r, FloatFacts.add_nan_r.
    apply FloatFacts.div_nan_l.
Qed.

(** C10, as stated, fails in two ways.  On 127 samples that are flat at 90
    but for two dips at samples 10 and 20, the only window has a single
    systolic candidate (the plateau between the dips) and two diastolic
    ones: its row has no [avg_sys] and no [avg_map], but [avg_dias] is 60.
    And when the sample at the window's end (label 125) is absent from the
    table, the window is dropped although it has no candidate at all: no
    row is emitted and the aggregator returns [None]. *)
Lemma short_window_dias_present_or_row_dropped :
  (exists tbl r sc dc,
     avg_bp (loaded (two_dips <$> seq 0 127)) 1 1 = Ok (Some tbl)
     /\ sd_rows tbl = [r]
     /\ sys_candidates (channel (loc_slice 0 125
                                   (loaded (two_dips <$> seq 0 127)))) = Ok sc
     /\ dias_candidates (channel (loc_slice 0 125
                                    (loaded (two_dips <$> seq 0 127)))) = Ok dc
     /\ length sc = 1%nat /\ length dc = 2%nat
     /\ avg_sys r = Float.NaN /\ avg_map r = Float.NaN
     /\ Float.eqb (avg_dias r) (Float.of_Z 60) = true
     /\ avg_dias r <> Float.NaN)
  /\ (exists sc,
        sys_candidates
          (channel (loc_slice 0 125
             (filter (fun s => s_label s <> 125)
                (loaded (replicate 127 (Float.of_Z 90)))))) = Ok sc
        /\ length sc = 0%nat
        /\ window_ends (filter (fun s => s_label s <> 125)
                          (loaded (replicate 127 (Float.of_Z 90)))) 1 1
           = Ok [125]
        /\ avg_bp (filter (fun s => s_label s <> 125)
                     (loaded (replicate 127 (Float.of_Z 90)))) 1 1
           = Ok None).
Proof.
  split.
  - eexists _, _, _, _. split; [vm_compute; reflexivity|].
    split; [reflexivity|]. split; [vm_compute; reflexivity|].
    split; [vm_compute; reflexivity|]. by repeat split.
  - eexists. split; [vm_compute; reflexivity|]. split; [reflexivity|].
    split; vm_compute; reflexivity.
Qed.

(** C10, amended: a window whose two boundary timestamps are available and
    whose sub-series yields fewer than two systolic or fewer than two
    diastolic candidates is not skipped and raises nothing: the aggregator
    returns a table with a row for it, whose [avg_map] is [nan] and whose
    [current_hypotensive] is 0; [avg_sys] is [nan] when the systolic
    candidates are fewer than two, [avg_dias] is [nan] when the diastolic
    ones are. *)
Theorem short_window_row_nan_not_hypotensive df time_chunk time_window
    windows cur t0 t1 sc dc :
  let chunk := samples_of time_chunk in
  let df_sub := loc_slice (cur - chunk) cur df in
  window_ends df time_chunk time_window = Ok windows ->
  cur ∈ windows ->
  loc_ts (cur - chunk) df_sub = Some t0 ->
  loc_ts cur df_sub = Some t1 ->
  sys_candidates (channel df_sub) = Ok sc ->
  dias_candidates (channel df_sub) = Ok dc ->
  (length sc < 2 \/ length dc < 2)%nat ->
  exists tbl r,
    avg_bp df time_chunk time_window = Ok (Some tbl)
    /\ r ∈ sd_rows tbl
    /\ start_window r = cur - chunk /\ end_window r = cur
    /\ avg_map r = Float.NaN
    /\ current_hypotensive r = 0
    /\ ((length sc < 2)%nat -> avg_sys r = Float.NaN)
    /\ ((length dc < 2)%nat -> avg_dias r = Float.NaN).
Proof.
  intros chunk df_sub Hends Hcur Ht0 Ht1 Hsc Hdc Hshort.
  destruct (window_ends_head _ _ _ _ Hends) as [first Hfirst].
  destruct (window_summary_total df first chunk cur Hfirst) as [o Ho].
  assert (exists w, o = Some w) as [w ->].
  { revert Ho. unfold window_summary.
    rewrite get_sys_bp_channel, get_dias_bp_channel. simpl.
    unfold first_wave. rewrite Hfirst. simpl.
    fold chunk. fold df_sub. rewrite Ht0, Ht1. intros [= <-]. eauto. }
  destruct (window_loop_total df first chunk windows [] Hfirst) as [out Hloop].
  pose proof (window_loop_complete _ _ _ _ _ Hloop cur w Hcur Ho) as Hw.
  apply list_elem_of_lookup in Hw as [i Hi].
  pose proof (window_summary_Some _ _ _ _ Ho) as (Hstart & Hend & _).
  destruct (window_summary_short _ _ _ _ _ _ Ho Hsc Hdc) as [Hs Hd].
  assert (w_avg_map w = Float.NaN) as Hmap
    by (destruct Hshort as [H|H]; [by apply Hs | by apply Hd]).
  exists {| sd_rows := label_rows out; sd_cols := ∅ |},
    (label_row w (hypotensive_flag (w_avg_map w)) (label_at out i)).
  split.
  { unfold avg_bp. rewrite Hends. simpl. fold chunk. rewrite Hloop. simpl.
    by destruct out. }
  split.
  { simpl. apply list_elem_of_lookup. exists i.
    by rewrite label_rows_lookup, Hi. }
  simpl. rewrite Hmap.
  repeat split; [done | done | intros H; by apply Hs | intros H; by apply Hd].
Qed.

Lemma short_window_row_nan_not_hypotensive_witness :
  exists tbl r,
    avg_bp (loaded (two_dips <$> seq 0 127)) 1 1 = Ok (Some tbl)
    /\ r ∈ sd_rows tbl
    /\ start_window r = 0 /\ end_window r = 125
    /\ avg_map r = Float.NaN
    /\ current_hypotensive r = 0.
Proof.
  edestruct (short_window_row_nan_not_hypotensive
               (loaded (two_dips <$> seq 0 127)) 1 1 [125] 125)
    as (tbl & r & Hrun & Hin & Hstart & Hend & Hmap & Hflag & _);
    [ vm_compute; reflexivity
    | apply list_elem_of_singleton; reflexivity
    | vm_compute; reflexivity
    | vm_compute; reflexivity
    | vm_compute; reflexivity
    | vm_compute; reflexivity
    | left; simpl; lia
    | ].
  exists tbl, r. repeat split; assumption.
Defined.

(** ** Diastolic extraction on non-positive values *)

Lemma kept_of_pairs_elem l p : p ∈ kept_of_pairs l -> p ∈ l.
Proof.
  induction l as [l IH] using (induction_ltof1 _ (@length _)).
  destruct l as [|a [|b rest]]; simpl; [by intros ?%elem_of_nil..|].
  intros [->|Hin]%elem_of_cons.
  - destruct (Float.ltb a.2 b.2); [right; left | left].
  - do 2 right. apply IH; [unfold ltof; simpl; lia | done].
Qed.





(** ** The lookback feature *)



Lemma py_int_sub_le (i : nat) (n : Q) :
  (0 <= n)%Q -> py_int (inject_Z (Z.of_nat i) - n)%Q <= Z.of_nat i.
Proof.
  destruct n as [p d]. unfold Qle, py_int. simpl. intros Hp.
  rewrite Pos2Z.inj_mul. change (Z.pos 1) with 1.
  rewrite Z.mul_1_l.
  etrans; [apply (Z.quot_le_mono _ (Z.of_nat i * Z.pos d)); lia|].
  rewrite Z.quot_mul by lia. done.
Qed.

Lemma iloc_nonneg df pos r :
  0 <= pos -> sd_rows df !! Z.to_nat pos = Some r -> iloc df pos = Ok r.
Proof.
  intros Hpos Hr. unfold iloc. cbv zeta.
  destruct (decide (pos < 0)) as [?|_]; [lia|].
  destruct (decide (0 <= pos)) as [_|?]; [|lia]. by rewrite Hr.
Qed.

Lemma lookback_loop_spec df n_skips labels lb_array :
  (0 <= n_skips)%Q ->
  NoDup labels ->
  (forall i, i ∈ labels -> (i < length lb_array)%nat) ->
  (forall i, i ∈ labels -> (i < length (sd_rows df))%nat) ->
  exists out,
    lookback_loop df n_skips labels lb_array = Ok out
    /\ length out = length lb_array
    /\ (forall i, i ∈ labels -> out !! i = Some (lookback_target df n_skips i))
    /\ (forall i, i ∉ labels -> out !! i = lb_array !! i).
Proof.
  intros Hn. revert lb_array.
  induction labels as [|index rest IH]; intros lb_array Hdup Harr Hrows.
  - exists lb_array. simpl. split; [done|]. split; [done|]. split; [|done].
    intros i Hi. by apply elem_of_nil in Hi.
  - apply NoDup_cons in Hdup as [Hnotin Hdup]. simpl.
    assert (exists v,
      (if decide (py_int (inject_Z (Z.of_nat index) - n_skips)%Q < 0)
       then lookback_loop df n_skips rest (<[index := Float.NaN]> lb_array)
       else lookback ← iloc df (py_int (inject_Z (Z.of_nat index) - n_skips)%Q);
            lookback_loop df n_skips rest
              (<[index := avg_map lookback]> lb_array))
      = lookback_loop df n_skips rest (<[index := v]> lb_array)
      /\ v = lookback_target df n_skips index) as (v & -> & Hv).
    { unfold lookback_target. case_decide as Hneg; [eauto|].
      pose proof (py_int_sub_le index n_skips Hn) as Hle.
      destruct (lookup_lt_is_Some_2 (sd_rows df)
                  (Z.to_nat (py_int (inject_Z (Z.of_nat index) - n_skips)%Q)))
        as [r Hr].
      { specialize (Hrows index (ltac:(left))). lia. }
      rewrite (iloc_nonneg _ _ r) by (done || lia). rewrite Hr. simpl. eauto. }
    destruct (IH (<[index := v]> lb_array) Hdup) as (out & Hout & Hlen & Hin & Hnin).
    { intros i Hi. rewrite length_insert. apply Harr. by right. }
    { intros i Hi. apply Hrows. by right. }
    exists out. split; [done|]. rewrite length_insert in Hlen.
    split; [done|]. split.
    + intros i [->|Hi]%elem_of_cons; [|by apply Hin].
      rewrite Hnin by done. rewrite list_lookup_insert_eq; [by rewrite Hv|].
      apply Harr. by left.
    + intros i Hi. apply not_elem_of_cons in Hi as [Hne Hi].
      rewrite Hnin by done. by rewrite list_lookup_insert_ne.
Qed.

Lemma create_lookback_unfold df time r0 r1 :
  sd_rows df !! 0%nat = Some r0 -> sd_rows df !! 1%nat = Some r1 ->
  create_lookback df time
  = if Float.Qltb (inject_Z time) (computed_spacing r0 r1)
    then Raise ValueError
    else if Qeq_bool (computed_spacing r0 r1) 0 then Raise ZeroDivisionError
    else
      lb_array ← lookback_loop df (inject_Z time / computed_spacing r0 r1)%Q
                   (seq 0 (length (sd_rows df)))
                   (replicate (length (sd_rows df)) (Float.of_Z 0));
      mret {| sd_rows := sd_rows df;
              sd_cols := <[lookback_column time := FloatCol lb_array]>
                           (sd_cols df) |}.
Proof.
  intros H0 H1. unfold create_lookback.
  rewrite (iloc_nonneg df 1 r1) by (done || lia).
  rewrite (iloc_nonneg df 0 r0) by (done || lia). done.
Qed.

Lemma n_skips_nonneg time spacing :
  (0 < spacing)%Q -> (spacing <= inject_Z time)%Q ->
  (0 <= inject_Z time / spacing)%Q.
Proof.
  intros Hpos Hle. apply Qle_shift_div_l; [done|].
  rewrite Qmult_0_l. eapply Qle_trans; [apply Qlt_le_weak|]; done.
Qed.

Lemma timedelta_seconds_range d : 0 <= timedelta_seconds d < 86400.
Proof. unfold timedelta_seconds. apply Z.mod_pos_bound. lia. Qed.

Lemma computed_spacing_nonneg r0 r1 : (0 <= computed_spacing r0 r1)%Q.
Proof.
  unfold computed_spacing. apply Qle_shift_div_l; [done|].
  rewrite Qmult_0_l. change 0%Q with (inject_Z 0). rewrite <- Zle_Qle.
  apply timedelta_seconds_range.
Qed.

Lemma Qltb_lt a b : Float.Qltb a b = true <-> (a < b)%Q.
Proof.
  unfold Float.Qltb. rewrite negb_true_iff. split.
  - intros H. apply Qnot_le_lt. intros Hle%Qle_bool_iff. congruence.
  - intros H. destruct (Qle_bool b a) eqn:E; [|done].
    apply Qle_bool_iff in E. by apply Qle_not_lt in E.
Qed.

Lemma Qltb_ge a b : (b <= a)%Q -> Float.Qltb a b = false.
Proof. intros H%Qle_bool_iff. unfold Float.Qltb. by rewrite H. Qed.

Lemma Qeq_bool_pos a : (0 < a)%Q -> Qeq_bool a 0 = false.
Proof.
  intros H. destruct (Qeq_bool a 0) eqn:E; [|done].
  apply Qeq_bool_iff in E. rewrite E in H. by apply Qlt_irrefl in H.
Qed.

(** With a positive computed spacing that the lookback reaches, the call
    completes and stores [lookback_target] in every row. *)
Lemma create_lookback_completes df time r0 r1 :
  sd_rows df !! 0%nat = Some r0 -> sd_rows df !! 1%nat = Some r1 ->
  (0 < computed_spacing r0 r1)%Q ->
  (computed_spacing r0 r1 <= inject_Z time)%Q ->
  exists lb,
    create_lookback df time
    = Ok {| sd_rows := sd_rows df;
            sd_cols := <[lookback_column time := FloatCol lb]> (sd_cols df) |}
    /\ length lb = length (sd_rows df)
    /\ forall i, (i < length (sd_rows df))%nat ->
         lb !! i
         = Some (lookback_target df
                   (inject_Z time / computed_spacing r0 r1)%Q i).
Proof.
  intros H0 H1 Hpos Hle. rewrite (create_lookback_unfold df time r0 r1) by done.
  rewrite Qltb_ge, Qeq_bool_pos by done.
  destruct (lookback_loop_spec df (inject_Z time / computed_spacing r0 r1)%Q
              (seq 0 (length (sd_rows df)))
              (replicate (length (sd_rows df)) (Float.of_Z 0)))
    as (lb & -> & Hlen & Hin & _).
  - by apply n_skips_nonneg.
  - apply NoDup_seq.
  - intros i Hi%elem_of_seq. rewrite length_replicate. lia.
  - intros i Hi%elem_of_seq. lia.
  - exists lb. split; [done|]. rewrite length_replicate in Hlen.
    split; [done|]. intros i Hi. apply Hin, elem_of_seq. lia.
Qed.





(** ** The spacing check *)


(** C9 at its failing inputs: [Timedelta.seconds] leaves out the whole days
    of the difference.  Rows one day apart have a computed spacing of 0, so
    a lookback of 1440 minutes, equal to the spacing, ends in
    [ZeroDivisionError]; rows one day and five minutes apart have a
    computed spacing of 5, so a lookback of 10 minutes, far shorter than
    the spacing of 1445 minutes, raises nothing and the call completes. *)
Theorem spacing_check_drops_whole_days :
  create_lookback day_apart_table 1440 = Raise ZeroDivisionError
  /\ create_lookback day_and_five_minutes_table 10
     = Ok {| sd_rows := sd_rows day_and_five_minutes_table;
             sd_cols := <["lb_10_map" := FloatCol [Float.NaN; Float.NaN]]> ∅ |}.
Proof. split; vm_compute; reflexivity. Qed.

(** * Further properties *)

(** ** Channel selection *)

(** The extractors raise [IndexError] exactly on a frame without columns;
    on any other frame they read column 0, so the second channel of the
    [except] branch never supplies the values. *)
Theorem extractors_raise_without_columns (df : frame) :
  (get_sys_bp df = Raise IndexError <-> columns df = [])
  /\ (get_dias_bp df = Raise IndexError <-> columns df = [])
  /\ (forall vals rest, columns df = vals :: rest ->
        get_sys_bp df
          = Ok (pair_candidates (candidates_at df vals (find_peaks vals)))
        /\ get_dias_bp df
          = Ok (pair_candidates
                  (candidates_at df vals (find_peaks (reciprocal vals))))).
Proof.
  unfold get_sys_bp, get_dias_bp, sys_candidates, dias_candidates,
    select_channel, values_col.
  destruct (columns df) as [|vals rest]; simpl.
  - repeat split; done.
  - split; [done|]. split; [done|]. by intros vals0 rest0 [= <- <-].
Qed.

Lemma extractors_raise_without_columns_witness :
  get_sys_bp {| index := [0; 1; 2; 3; 4; 5];
                columns := [Float.of_Z <$> [1; 5; 2; 7; 3; 1];
                            Float.of_Z <$> [9; 9; 9; 9; 9; 9]] |}
    = Ok [(3, Float.of_Z 7)].
Proof.
  edestruct (extractors_raise_without_columns
               {| index := [0; 1; 2; 3; 4; 5];
                  columns := [Float.of_Z <$> [1; 5; 2; 7; 3; 1];
                              Float.of_Z <$> [9; 9; 9; 9; 9; 9]] |})
    as (_ & _ & Hcol).
  edestruct Hcol as [Hsys _]; [reflexivity|].
  rewrite Hsys. vm_compute. reflexivity.
Defined.

(** ** Order of the paired peaks *)

Lemma kept_of_pairs_sublist l : kept_of_pairs l `sublist_of` l.
Proof.
  induction l as [l IH] using (induction_ltof1 _ (@length _)).
  destruct l as [|a [|b rest]]; simpl.
  - constructor.
  - by do 2 constructor.
  - assert (kept_of_pairs rest `sublist_of` rest) as Hrest
      by (apply IH; unfold ltof; simpl; lia).
    destruct (Float.ltb a.2 b.2).
    + by apply sublist_cons, sublist_skip.
    + by apply sublist_skip, sublist_cons.
Qed.

(** The pairing step only drops candidates: what it returns is the
    candidate list with some entries removed, the remaining ones in their
    original order. *)
Theorem pair_candidates_sublist (max_values : list peak) :
  pair_candidates max_values `sublist_of` max_values.
Proof. rewrite pair_candidates_kept. apply kept_of_pairs_sublist. Qed.

(** ** Mean arterial pressure between the two pressures *)




(** ** Errors and the empty result of the aggregator *)

Lemma samples_of_zero seconds : samples_of seconds = 0 <-> seconds = 0.
Proof. rewrite samples_of_exact. lia. Qed.

Lemma py_range_total start stop step :
  step <> 0 -> exists ws, py_range start stop step = Ok ws.
Proof. intros Hs. unfold py_range. rewrite decide_False by done. eauto. Qed.

(** The aggregator raises in two cases only: [IndexError] on a table
    without rows, and [ValueError] (a [range] step of zero) when the step
    duration is 0 on a table with rows.  Every other call returns. *)
Theorem avg_bp_raises_iff (df : waveform) (time_chunk time_window : Z) e :
  avg_bp df time_chunk time_window = Raise e
  <-> (df = [] /\ e = IndexError)
      \/ (df <> [] /\ time_window = 0 /\ e = ValueError).
Proof.
  unfold avg_bp, window_ends.
  destruct (head df) as [first|] eqn:Hfirst.
  - assert (df <> []) as Hne by (by intros ->).
    destruct (last df) as [final|] eqn:Hlast;
      [|by apply last_None in Hlast].
    destruct (decide (time_window = 0)) as [->|Hstep].
    + simpl. split.
      * intros [= <-]. by right.
      * by intros [[? _]|(_ & _ & ->)].
    + destruct (py_range_total (s_label first + samples_of time_chunk)
                  (s_label final) (samples_of time_window)) as [ws ->].
      { by rewrite samples_of_zero. }
      simpl.
      destruct (window_loop_total df first (samples_of time_chunk) ws []
                  Hfirst) as [out ->].
      simpl. split.
      * by destruct out.
      * by intros [[? _]|(_ & ? & _)].
  - apply head_None in Hfirst as ->. simpl. split.
    + intros [= <-]. by left.
    + by intros [[_ ->]|[? _]].
Qed.

(** A recording that does not reach beyond its first window (the last label
    is at most [first + chunk]) has no window position at all: with a
    positive step the aggregator returns [None]. *)
Theorem avg_bp_short_recording_none df time_chunk time_window first final :
  head df = Some first -> last df = Some final ->
  0 < time_window ->
  s_label final <= s_label first + samples_of time_chunk ->
  avg_bp df time_chunk time_window = Ok None.
Proof.
  intros Hfirst Hlast Hstep Hshort.
  unfold avg_bp, window_ends. rewrite Hfirst, Hlast.
  pose proof (samples_of_exact time_window) as Hw.
  unfold py_range. rewrite decide_False by lia. rewrite decide_True by lia.
  assert ((s_label final - (s_label first + samples_of time_chunk)
           + samples_of time_window - 1) `div` samples_of time_window < 1)
    as Hn by (apply Z.div_lt_upper_bound; lia).
  replace (Z.to_nat _) with 0%nat by lia. done.
Qed.

Lemma avg_bp_short_recording_none_witness :
  avg_bp (loaded (replicate 100 (Float.of_Z 90))) 1 1 = Ok None.
Proof.
  eapply (avg_bp_short_recording_none _ 1 1);
    [vm_compute; reflexivity | vm_compute; reflexivity | lia
    | vm_compute; discriminate].
Defined.

(** ** Order and number of the rows *)

Lemma StronglySorted_sublist {A} (R : relation A) l1 l2 :
  l1 `sublist_of` l2 -> StronglySorted R l2 -> StronglySorted R l1.
Proof.
  induction 1 as [|x l1 l2 Hsub IH|x l1 l2 Hsub IH]; intros Hs.
  - constructor.
  - apply StronglySorted_inv in Hs as [Hs Hall]. constructor; [by apply IH|].
    apply Forall_forall. intros y Hy.
    rewrite Forall_forall in Hall. apply Hall.
    by eapply elem_of_sublist.
  - apply StronglySorted_inv in Hs as [Hs _]. by apply IH.
Qed.

Lemma StronglySorted_lookup_lt {A} (R : relation A) l i j x y :
  StronglySorted R l -> (i < j)%nat ->
  l !! i = Some x -> l !! j = Some y -> R x y.
Proof.
  intros Hs. revert i j. induction Hs as [|a l Hs IH Hall]; intros i j Hij Hi Hj.
  - done.
  - destruct j as [|j]; [lia|]. destruct i as [|i]; simpl in *.
    + injection Hi as <-. rewrite Forall_forall in Hall.
      apply Hall. by eapply list_elem_of_lookup_2.
    + eapply (IH i j); [lia|done..].
Qed.

Lemma py_range_sorted start stop step ws :
  0 < step -> py_range start stop step = Ok ws -> StronglySorted Z.lt ws.
Proof.
  intros Hpos. unfold py_range. rewrite decide_False by lia.
  intros [= <-]. generalize (Z.to_nat
    (if decide (0 < step) then (stop - start + step - 1) `div` step
     else (start - stop - step - 1) `div` (- step))).
  intros n. generalize 0%nat as k.
  induction n as [|n IH]; intros k; simpl; constructor; [apply IH|].
  apply Forall_forall. intros w (j & -> & Hj)%list_elem_of_fmap.
  apply elem_of_seq in Hj. nia.
Qed.

(** The rows the loop adds end at window positions, in the order of the
    positions, and start one chunk earlier. *)
Lemma window_loop_shape df time_chunk windows new_df out :
  window_loop df time_chunk windows new_df = Ok out ->
  exists added,
    out = new_df ++ added
    /\ (w_end_window <$> added) `sublist_of` windows
    /\ Forall (fun w => w_start_window w = w_end_window w - time_chunk) added.
Proof.
  revert new_df. induction windows as [|cur rest IH]; intros new_df; simpl.
  - intros [= <-]. exists []. rewrite app_nil_r. repeat split; constructor.
  - destruct (window_summary df time_chunk cur) as [[cur_row|]|] eqn:E;
      simpl; [| |done]; intros (added & -> & Hsub & Hall)%IH.
    + apply window_summary_Some in E as (Hstart & Hend & _).
      exists (cur_row :: added). rewrite <- app_assoc. split; [done|].
      split.
      * simpl. rewrite Hend. by apply sublist_skip.
      * constructor; [lia|done].
    + exists added. split; [done|]. split; [by apply sublist_cons|done].
Qed.

Lemma label_rows_start_window new_df :
  start_window <$> label_rows new_df = w_start_window <$> new_df.
Proof.
  apply list_eq. intros i. rewrite !list_lookup_fmap, label_rows_lookup.
  by destruct (new_df !! i).
Qed.

(** With a positive step the rows of the table are in strictly increasing
    order of [start_window] (the sorted copy the function drops would not
    differ), so [start_window] identifies a row; and there are at most as
    many rows as window positions. *)
Theorem avg_bp_rows_increasing df time_chunk time_window tbl windows :
  avg_bp df time_chunk time_window = Ok (Some tbl) ->
  window_ends df time_chunk time_window = Ok windows ->
  0 < time_window ->
  (length (sd_rows tbl) <= length windows)%nat
  /\ forall i j ri rj, (i < j)%nat ->
       sd_rows tbl !! i = Some ri -> sd_rows tbl !! j = Some rj ->
       start_window ri < start_window rj.
Proof.
  intros (ws & new_df & Hends & Hloop & ->)%avg_bp_Some Hws Hstep.
  rewrite Hends in Hws. injection Hws as ->. simpl.
  apply window_loop_shape in Hloop as (added & -> & Hsub & Hall).
  simpl in *. split.
  - rewrite label_rows_length, <- (length_fmap w_end_window).
    by apply sublist_length.
  - assert (StronglySorted Z.lt windows) as Hsorted.
    { unfold window_ends in Hends.
      destruct (head df), (last df); try done.
      eapply py_range_sorted; [|done].
      pose proof (samples_of_exact time_window). lia. }
    pose proof (StronglySorted_sublist _ _ _ Hsub Hsorted) as Hends_sorted.
    intros i j ri rj Hij Hi Hj.
    rewrite label_rows_lookup in Hi, Hj.
    destruct (added !! i) as [wi|] eqn:Ewi; [|done].
    destruct (added !! j) as [wj|] eqn:Ewj; [|done].
    injection Hi as <-. injection Hj as <-. simpl.
    rewrite Forall_forall in Hall.
    rewrite (Hall wi), (Hall wj) by (by eapply list_elem_of_lookup_2).
    assert (w_end_window wi < w_end_window wj); [|lia].
    eapply (StronglySorted_lookup_lt Z.lt _ i j); [done..| |];
      by rewrite list_lookup_fmap, ?Ewi, ?Ewj.
Qed.

Lemma avg_bp_rows_increasing_witness :
  exists r3 r7,
    sd_rows example_summary !! 3%nat = Some r3
    /\ sd_rows example_summary !! 7%nat = Some r7
    /\ start_window r3 < start_window r7.
Proof.
  eexists _, _. split; [vm_compute; reflexivity|].
  split; [vm_compute; reflexivity|].
  edestruct (avg_bp_rows_increasing example_waveform 1 1 example_summary)
    as [_ Hlt]; [apply example_summary_run | vm_compute; reflexivity | lia |].
  eapply (Hlt 3%nat 7%nat); [lia | vm_compute; reflexivity..].
Defined.

(** ** What the cleaner excludes and keeps *)

Lemma geb_nan_l x : Float.geb Float.NaN x = false.
Proof. by destruct x. Qed.

Lemma include_flag_lookup (df : summary_df) i r :
  sd_rows df !! i = Some r ->
  exists include,
    sd_cols (clean_bp_summary df) !! "include_in_model"
      = Some (IntCol include)
    /\ include !! i
       = Some (if Float.geb (avg_sys r) (Float.of_Z 30)
                  && Float.geb (avg_dias r) (Float.of_Z 10)
                  && negb (Float.isnan (hypotensive_in_15 r))
               then 1 else 0).
Proof.
  intros Hr. unfold clean_bp_summary; simpl.
  eexists. split; [apply lookup_insert_eq|].
  by rewrite (np_where_and3_lookup _ _ _ _ i r Hr).
Qed.

(** A row in which [avg_sys], [avg_dias] or [hypotensive_in_15] is [nan]
    is flagged 0: a window without paired peaks never enters the model. *)
Theorem cleaner_excludes_nan_rows (df : summary_df) i r :
  sd_rows df !! i = Some r ->
  avg_sys r = Float.NaN \/ avg_dias r = Float.NaN
    \/ hypotensive_in_15 r = Float.NaN ->
  exists include,
    sd_cols (clean_bp_summary df) !! "include_in_model"
      = Some (IntCol include)
    /\ include !! i = Some 0.
Proof.
  intros Hr Hnan.
  destruct (include_flag_lookup df i r Hr) as (include & Hcol & Hinc).
  exists include. split; [done|]. rewrite Hinc.
  destruct Hnan as [E|[E|E]]; rewrite E.
  - by rewrite geb_nan_l.
  - rewrite geb_nan_l. by rewrite andb_false_r.
  - simpl. by rewrite andb_false_r.
Qed.

Lemma cleaner_excludes_nan_rows_witness :
  exists include,
    sd_cols (clean_bp_summary (example_table
      [example_row 0 (Float.of_Z 120) (Float.of_Z 80) (Float.Fin (280 # 3))
         0 (Float.of_Z 0);
       example_row 60 Float.NaN (Float.of_Z 80) Float.NaN 0 (Float.of_Z 0)]))
      !! "include_in_model" = Some (IntCol include)
    /\ include !! 1%nat = Some 0.
Proof.
  eapply (cleaner_excludes_nan_rows _ 1%nat); [reflexivity|].
  left. reflexivity.
Defined.

(** On a table the aggregator returns, the cleaner flags each of the final
    15 rows 0, their label being missing; a table of at most 15 rows has no
    usable row at all. *)
Theorem cleaner_excludes_final_rows df time_chunk time_window tbl i :
  avg_bp df time_chunk time_window = Ok (Some tbl) ->
  (i < length (sd_rows tbl))%nat ->
  (length (sd_rows tbl) <= i + 15)%nat ->
  exists include,
    sd_cols (clean_bp_summary tbl) !! "include_in_model"
      = Some (IntCol include)
    /\ include !! i = Some 0.
Proof.
  intros (ws & new_df & _ & _ & ->)%avg_bp_Some Hi Hlast. simpl in *.
  rewrite label_rows_length in Hi, Hlast.
  destruct (lookup_lt_is_Some_2 new_df i Hi) as [w Hw].
  edestruct (include_flag_lookup {| sd_rows := label_rows new_df;
                                    sd_cols := ∅ |} i)
    as (include & Hcol & Hinc).
  { simpl. by rewrite label_rows_lookup, Hw. }
  exists include. split; [done|]. rewrite Hinc. simpl. unfold label_at.
  rewrite (lookup_ge_None_2 new_df (i + 15)) by lia. simpl.
  by rewrite andb_false_r.
Qed.

Lemma cleaner_excludes_final_rows_witness :
  exists include,
    sd_cols (clean_bp_summary example_summary) !! "include_in_model"
      = Some (IntCol include)
    /\ include !! 4%nat = Some 0.
Proof.
  apply (cleaner_excludes_final_rows example_waveform 1 1 example_summary 4);
    [apply example_summary_run | vm_compute; lia | vm_compute; lia].
Defined.

(** ** Errors of the lookback *)

Lemma iloc_short df pos :
  (length (sd_rows df) <= Z.to_nat pos)%nat -> 0 <= pos ->
  iloc df pos = Raise IndexError.
Proof.
  intros Hlen Hpos. unfold iloc. cbv zeta.
  destruct (decide (pos < 0)) as [?|_]; [lia|].
  destruct (decide (0 <= pos)) as [_|?]; [|lia].
  by rewrite lookup_ge_None_2.
Qed.

(** [create_lookback] raises in three cases only: [IndexError] on a table
    of fewer than two rows, [ValueError] when the lookback is below the
    computed spacing, and [ZeroDivisionError] when the computed spacing is
    zero and the lookback is not negative.  Every other call returns. *)
Theorem create_lookback_raises_iff (df : summary_df) (time : Z) e :
  create_lookback df time = Raise e
  <-> ((length (sd_rows df) < 2)%nat /\ e = IndexError)
      \/ exists r0 r1,
           sd_rows df !! 0%nat = Some r0 /\ sd_rows df !! 1%nat = Some r1
           /\ (((inject_Z time < computed_spacing r0 r1)%Q /\ e = ValueError)
               \/ ((computed_spacing r0 r1 == 0)%Q /\ 0 <= time
                   /\ e = ZeroDivisionError)).
Proof.
  destruct (decide (length (sd_rows df) < 2)%nat) as [Hshort|Hlong].
  - unfold create_lookback.
    rewrite (iloc_short df 1) by (simpl; lia). simpl. split.
    + intros [= <-]. by left.
    + intros [[_ ->]|(? & r1 & _ & Hr1 & _)]; [done|].
      apply lookup_lt_Some in Hr1. lia.
  - destruct (lookup_lt_is_Some_2 (sd_rows df) 0) as [r0 H0]; [lia|].
    destruct (lookup_lt_is_Some_2 (sd_rows df) 1) as [r1 H1]; [lia|].
    rewrite (create_lookback_unfold df time r0 r1) by done.
    pose proof (computed_spacing_nonneg r0 r1) as Hge.
    assert (forall P : Prop,
      (((inject_Z time < computed_spacing r0 r1)%Q /\ e = ValueError)
       \/ ((computed_spacing r0 r1 == 0)%Q /\ 0 <= time
           /\ e = ZeroDivisionError) -> P) ->
      ((length (sd_rows df) < 2)%nat /\ e = IndexError)
      \/ (exists x0 x1,
           sd_rows df !! 0%nat = Some x0 /\ sd_rows df !! 1%nat = Some x1
           /\ (((inject_Z time < computed_spacing x0 x1)%Q /\ e = ValueError)
               \/ ((computed_spacing x0 x1 == 0)%Q /\ 0 <= time
                   /\ e = ZeroDivisionError))) -> P) as Hcases.
    { intros P HP [[? _]|(x0 & x1 & Hx0 & Hx1 & Hc)]; [lia|].
      simplify_eq. by apply HP. }
    destruct (Float.Qltb _ _) eqn:E.
    { apply Qltb_lt in E. split.
      - intros [= <-]. right. exists r0, r1. eauto.
      - apply Hcases. intros [[_ ->]|(Hz & Htime & _)]; [done|].
        rewrite Hz in E. exfalso.
        assert (inject_Z time < inject_Z 0)%Q as Hlt by done.
        rewrite <- Zlt_Qlt in Hlt. lia. }
    assert (computed_spacing r0 r1 <= inject_Z time)%Q as Hle.
    { apply Qnot_lt_le. intros Hlt%Qltb_lt. congruence. }
    destruct (Qeq_bool _ _) eqn:E0.
    { apply Qeq_bool_iff in E0. split.
      - intros [= <-]. right. exists r0, r1. split; [done|]. split; [done|].
        right. split; [done|]. split; [|done].
        rewrite E0 in Hle. change 0%Q with (inject_Z 0) in Hle.
        by rewrite <- Zle_Qle in Hle.
      - apply Hcases. intros [[Hlt _]|(_ & _ & ->)]; [|done].
        by apply Qlt_not_le in Hlt. }
    assert (0 < computed_spacing r0 r1)%Q as Hpos.
    { apply Qle_lteq in Hge as [Hlt|Heq]; [done|].
      symmetry in Heq. apply Qeq_bool_iff in Heq. congruence. }
    destruct (create_lookback_completes df time r0 r1 H0 H1 Hpos Hle)
      as (lb & Hok & _).
    rewrite (create_lookback_unfold df time r0 r1), E, E0 in Hok by done.
    rewrite Hok. split; [done|].
    apply Hcases. intros [[Hlt _]|(Hz & _ & _)].
    + by apply Qlt_not_le in Hlt.
    + rewrite Hz in Hpos. by apply Qlt_irrefl in Hpos.
Qed.

(** ** The lookback never looks ahead *)

Lemma py_int_sub_lt (i : nat) (n : Q) :
  (1 <= n)%Q -> py_int (inject_Z (Z.of_nat i) - n)%Q < Z.of_nat i.
Proof.
  destruct n as [p d]. unfold Qle, py_int. simpl. intros Hp.
  rewrite Pos2Z.inj_mul. change (Z.pos 1) with 1.
  rewrite Z.mul_1_l.
  assert ((Z.of_nat i * Z.pos d + - p * 1) ÷ Z.pos d
          <= ((Z.of_nat i - 1) * Z.pos d) ÷ Z.pos d) as Hle
    by (apply Z.quot_le_mono; lia).
  rewrite Z.quot_mul in Hle by lia. lia.
Qed.

Lemma n_skips_ge_1 time spacing :
  (0 < spacing)%Q -> (spacing <= inject_Z time)%Q ->
  (1 <= inject_Z time / spacing)%Q.
Proof.
  intros Hpos Hle. apply Qle_shift_div_l; [done|]. by rewrite Qmult_1_l.
Qed.

(** Whenever the call completes, the value stored for a row is missing or is
    the [avg_map] of a strictly earlier row; the first row's value is always
    missing. *)
Theorem lookback_of_earlier_row df time r0 r1 i :
  sd_rows df !! 0%nat = Some r0 -> sd_rows df !! 1%nat = Some r1 ->
  (0 < computed_spacing r0 r1)%Q ->
  (computed_spacing r0 r1 <= inject_Z time)%Q ->
  (i < length (sd_rows df))%nat ->
  exists lb,
    create_lookback df time
    = Ok {| sd_rows := sd_rows df;
            sd_cols := <[lookback_column time := FloatCol lb]> (sd_cols df) |}
    /\ lb !! 0%nat = Some Float.NaN
    /\ (lb !! i = Some Float.NaN
        \/ exists j r', (j < i)%nat /\ sd_rows df !! j = Some r'
             /\ lb !! i = Some (avg_map r')).
Proof.
  intros H0 H1 Hpos Hle Hi.
  destruct (create_lookback_completes df time r0 r1 H0 H1 Hpos Hle)
    as (lb & Hrun & Hlen & Hlb).
  exists lb. split; [done|].
  pose proof (n_skips_ge_1 _ _ Hpos Hle) as Hn.
  assert (forall k, (k < length (sd_rows df))%nat ->
            lb !! k = Some Float.NaN
            \/ exists j r', (j < k)%nat /\ sd_rows df !! j = Some r'
                 /\ lb !! k = Some (avg_map r')) as Hall.
  { intros k Hk. rewrite (Hlb k Hk). unfold lookback_target.
    pose proof (py_int_sub_lt k _ Hn) as Hlt.
    case_decide as Hneg; [by left|].
    destruct (lookup_lt_is_Some_2 (sd_rows df)
                (Z.to_nat (py_int (inject_Z (Z.of_nat k)
                                   - inject_Z time / computed_spacing r0 r1)%Q)))
      as [r' Hr']; [lia|].
    rewrite Hr'. right. eexists _, r'. split; [|done]. lia. }
  split; [|by apply Hall].
  destruct (Hall 0%nat) as [?|(j & ? & ? & _)]; [|done|lia].
  apply lookup_lt_Some in H0. lia.
Qed.

Lemma lookback_of_earlier_row_witness :
  exists lb,
    create_lookback two_minute_table 3
    = Ok {| sd_rows := sd_rows two_minute_table;
            sd_cols := <["lb_3_map" := FloatCol lb]> ∅ |}
    /\ lb !! 0%nat = Some Float.NaN.
Proof.
  destruct (lookback_of_earlier_row two_minute_table 3
      (example_row 0 (Float.of_Z 20) (Float.of_Z 5) (Float.of_Z 10) 1
         Float.NaN)
      (example_row 120 (Float.of_Z 40) (Float.of_Z 10) (Float.of_Z 20) 1
         Float.NaN)
      2)
    as (lb & Hrun & Hfirst & _);
    [ reflexivity | reflexivity | reflexivity
    | unfold Qle; vm_compute; discriminate | simpl; lia | ].
  exists lb. split; [exact Hrun | exact Hfirst].
Defined.

(** ** The cleaner and the lookback do not interfere *)





(** ** Joining two summaries *)

(** [merge_df] returns a table exactly when the two ids are equal, and
    then prints nothing; on different ids it prints the one mismatch line
    and, [e] never having been assigned, ends in [UnboundLocalError]
    without a table. *)
Theorem merge_df_needs_equal_ids {I O : Type} (key_in : I -> Z)
    (key_out : O -> Z) (e_in e_out : string) (df_in : list I)
    (df_out : list O) :
  (e_in = e_out <->
   exists final_df,
     merge_df key_in key_out e_in e_out df_in df_out = ([], Merged final_df))
  /\ (e_in <> e_out <->
      merge_df key_in key_out e_in e_out df_in df_out
      = (["mismatch ids " +:+ e_in +:+ " - " +:+ e_out], UnboundLocalError)).
Proof.
  unfold merge_df. destruct (decide (e_in <> e_out)) as [Hne|Heq].
  - split; split; try done. by intros [? [=]].
  - apply dec_stable in Heq. split; split; try done.
    intros _. eauto.
Qed.

Lemma elem_of_merge_on {L R : Type} (key_l : L -> Z) (key_r : R -> Z)
    (left : list L) (right : list R) l r :
  (l, r) ∈ merge_on key_l key_r left right
  <-> l ∈ left /\ r ∈ right /\ key_r r = key_l l.
Proof.
  unfold merge_on. rewrite list_elem_of_bind. split.
  - intros (l' & Hin & Hl).
    apply list_elem_of_fmap in Hin as (r' & [= -> ->] & Hr).
    apply list_elem_of_filter in Hr as [Hkey Hr]. done.
  - intros (Hl & Hr & Hkey). exists l. split; [|done].
    apply list_elem_of_fmap. exists r. split; [done|].
    by apply list_elem_of_filter.
Qed.

(** With equal ids the table holds exactly the pairs of an output row and
    an input row with the same [start_window], each with the common id as
    its [waveform_id]. *)
Theorem merge_df_rows {I O : Type} (key_in : I -> Z) (key_out : O -> Z)
    (e : string) (df_in : list I) (df_out : list O) :
  exists final_df,
    merge_df key_in key_out e e df_in df_out = ([], Merged final_df)
    /\ forall o i w,
         (o, i, w) ∈ final_df
         <-> o ∈ df_out /\ i ∈ df_in /\ key_in i = key_out o /\ w = e.
Proof.
  unfold merge_df. rewrite !decide_False by (by intros ?).
  eexists. split; [done|]. intros o i w.
  rewrite list_elem_of_fmap. split.
  - intros ([o' i'] & [= -> -> ->] & Hin).
    apply elem_of_merge_on in Hin as (? & ? & ?). done.
  - intros (Ho & Hi & Hkey & ->). exists (o, i). split; [done|].
    by apply elem_of_merge_on.
Qed.

Lemma filter_key_absent {R : Type} (key_r : R -> Z) (right : list R) k :
  k ∉ key_r <$> right -> filter (fun r => key_r r = k) right = [].
Proof.
  induction right as [|r right IH]; [done|]. rewrite fmap_cons.
  intros [Hne Hnotin]%not_elem_of_cons. rewrite filter_cons.
  case_decide; [done|]. by apply IH.
Qed.

Lemma filter_key_unique {R : Type} (key_r : R -> Z) (right : list R) k :
  NoDup (key_r <$> right) ->
  (length (filter (fun r => key_r r = k) right) <= 1)%nat.
Proof.
  induction right as [|r right IH]; simpl; [lia|].
  intros [Hnotin Hdup]%NoDup_cons. rewrite filter_cons.
  case_decide as Hk; simpl; [|by apply IH].
  rewrite filter_key_absent by (by rewrite <- Hk). simpl. lia.
Qed.

Lemma merge_on_length {L R : Type} (key_l : L -> Z) (key_r : R -> Z)
    (left : list L) (right : list R) :
  NoDup (key_r <$> right) ->
  (length (merge_on key_l key_r left right) <= length left)%nat.
Proof.
  intros Hdup. unfold merge_on.
  induction left as [|l left IH]; simpl; [lia|].
  rewrite length_app, length_fmap.
  pose proof (filter_key_unique key_r right (key_l l) Hdup).
  unfold mbind in IH. lia.
Qed.

(** When no two input rows share a [start_window], every output row is
    joined with at most one input row: the table has at most as many rows as
    the output summary. *)
Theorem merge_df_at_most_output_rows {I O : Type} (key_in : I -> Z)
    (key_out : O -> Z) (e : string) (df_in : list I) (df_out : list O) :
  NoDup (key_in <$> df_in) ->
  exists final_df,
    merge_df key_in key_out e e df_in df_out = ([], Merged final_df)
    /\ (length final_df <= length df_out)%nat.
Proof.
  intros Hdup. unfold merge_df. rewrite !decide_False by (by intros ?).
  eexists. split; [done|]. rewrite length_fmap. by apply merge_on_length.
Qed.

Lemma merge_df_at_most_output_rows_witness :
  exists final_df,
    merge_df start_window start_window "a40439" "a40439"
      (sd_rows five_minute_table) (sd_rows two_minute_table)
    = ([], Merged final_df)
    /\ (length final_df <= 4)%nat.
Proof.
  apply (merge_df_at_most_output_rows start_window start_window "a40439"
           (sd_rows five_minute_table) (sd_rows two_minute_table)).
  apply (bool_decide_unpack _). vm_compute. reflexivity.
Defined.

(** ** Timestamps of the samples *)

Lemma round_half_even_inject z q :
  (q == inject_Z z)%Q -> round_half_even q = z.
Proof.
  intros Hq. unfold round_half_even.
  assert (Qfloor q = z) as -> by (by rewrite Hq, Qfloor_Z).
  assert (Float.Qltb (q - inject_Z z) (1 # 2) = true) as ->; [|done].
  apply Qltb_lt. rewrite Hq. lra.
Qed.

Lemma timedelta_of_sample label :
  timedelta_of_seconds (inject_Z label * (8 # 1000))%Q = 8000000 * label.
Proof.
  unfold timedelta_of_seconds.
  rewrite (round_half_even_inject (8000 * label)); [lia|].
  rewrite inject_Z_mult. change (inject_Z 8000) with 8000%Q.
  unfold Qeq. simpl. lia.
Qed.

(** [format_df] leaves labels, values and order alone and stamps every
    sample with the base time plus 8 ms per index step: samples 125 labels
    apart are exactly one second apart. *)
Theorem format_df_timestamps base_datetime (df : waveform) i s :
  format_df base_datetime df !! i = Some s ->
  exists s0,
    df !! i = Some s0
    /\ s_label s = s_label s0 /\ s_abp s = s_abp s0 /\ s_wave s = s_wave s0
    /\ s_ts s = base_datetime + 8000000 * s_label s0.
Proof.
  unfold format_df, waveform in *. rewrite list_lookup_fmap.
  destruct (df !! i) as [s0|]; [|done]. intros [= <-]. exists s0.
  simpl. by rewrite timedelta_of_sample.
Qed.

Lemma format_df_timestamps_witness :
  exists s,
    format_df 1000000000000 (loaded (replicate 130 (Float.of_Z 90))) !! 125%nat
      = Some s
    /\ s_ts s = 1001000000000.
Proof.
  eexists. split; [vm_compute; reflexivity|].
  edestruct (format_df_timestamps 1000000000000
               (loaded (replicate 130 (Float.of_Z 90))) 125)
    as (s0 & Hs0 & _ & _ & _ & Hts); [vm_compute; reflexivity|].
  rewrite Hts. vm_compute in Hs0. injection Hs0 as <-. reflexivity.
Defined.

Lemma format_df_elem base_datetime df s :
  s ∈ format_df base_datetime df ->
  s_ts s = base_datetime + 8000000 * s_label s.
Proof.
  intros (i & Hi)%list_elem_of_lookup.
  unfold format_df, waveform in *. rewrite list_lookup_fmap in Hi.
  destruct (df !! i) as [s0|]; [|done]. injection Hi as <-.
  simpl. by rewrite timedelta_of_sample.
Qed.

Lemma loc_ts_elem label df t :
  loc_ts label df = Some t ->
  exists s, s ∈ df /\ s_label s = label /\ s_ts s = t.
Proof.
  unfold loc_ts.
  destruct (list_find _ df) as [[i s]|] eqn:E; [|done].
  intros [= <-]. apply list_find_Some in E as (Hi & Hl & _).
  exists s. split; [by eapply list_elem_of_lookup_2|done].
Qed.

(** The time stamps of a row built from formatted samples. *)
Lemma formatted_row_times base_datetime df time_chunk time_window
    tbl i r :
  avg_bp (format_df base_datetime df) time_chunk time_window = Ok (Some tbl) ->
  sd_rows tbl !! i = Some r ->
  start_window_time r = base_datetime + 8000000 * start_window r
  /\ end_window_time r = base_datetime + 8000000 * end_window r
  /\ end_window_time r - start_window_time r = time_chunk * 1000000000.
Proof.
  intros Havg Hr.
  destruct (avg_bp_row _ _ _ _ _ _ Havg Hr)
    as (windows & new_df & w & cur & _ & _ & _ & -> & _ & Hs).
  apply window_summary_Some in Hs as (Hstart & Hend & Ht0 & Ht1 & _).
  apply loc_ts_elem in Ht0 as (s0 & Hin0 & Hl0 & Hts0).
  apply loc_ts_elem in Ht1 as (s1 & Hin1 & Hl1 & Hts1).
  apply list_elem_of_filter in Hin0 as [_ Hin0].
  apply list_elem_of_filter in Hin1 as [_ Hin1].
  apply format_df_elem in Hin0, Hin1.
  pose proof (samples_of_exact time_chunk). simpl. lia.
Qed.

(** On samples stamped by [format_df] every row of the summary starts at
    the base time plus 8 ms per index step, and its two time stamps are
    exactly the chunk duration apart. *)
Theorem window_times_of_formatted base_datetime df time_chunk time_window
    tbl i r :
  avg_bp (format_df base_datetime df) time_chunk time_window = Ok (Some tbl) ->
  sd_rows tbl !! i = Some r ->
  start_window_time r = base_datetime + 8000000 * start_window r
  /\ end_window_time r = base_datetime + 8000000 * end_window r
  /\ end_window_time r - start_window_time r = time_chunk * 1000000000.
Proof. apply formatted_row_times. Qed.

Lemma window_times_of_formatted_witness :
  exists tbl r,
    avg_bp (format_df 1000000000000 (loaded (beat <$> seq 0 400))) 2 1
      = Ok (Some tbl)
    /\ sd_rows tbl !! 0%nat = Some r
    /\ end_window_time r - start_window_time r = 2000000000.
Proof.
  eexists _, _. split; [vm_compute; reflexivity|].
  split; [reflexivity|].
  eapply (window_times_of_formatted 1000000000000
            (loaded (beat <$> seq 0 400)) 2 1 _ 0);
    [vm_compute; reflexivity | reflexivity].
Defined.

(** ** What the extractors return *)

Lemma plateau_scan_spec fuel x v a i_max :
  (a <= plateau_scan fuel x v a i_max)%nat
  /\ forall j, (a <= j < plateau_scan fuel x v a i_max)%nat ->
       exists w, x !! j = Some w /\ Float.eqb w v = true.
Proof.
  revert a. induction fuel as [|fuel IH]; intros a; simpl.
  - split; [lia|]. intros j Hj. lia.
  - case_decide; [|split; [lia|intros j Hj; lia]].
    destruct (x !! a) as [w|] eqn:Ha; [|split; [lia|intros j Hj; lia]].
    destruct (Float.eqb w v) eqn:Ew; [|split; [lia|intros j Hj; lia]].
    destruct (IH (a + 1)%nat) as [Hle Hall]. split; [lia|].
    intros j Hj. destruct (decide (j = a)) as [->|Hne]; [eauto|].
    apply Hall. lia.
Qed.

(** The loop only ever appends flat maxima, to the right of those it has,
    and in increasing order. *)
Lemma local_maxima_loop_spec fuel x i i_max midpoints :
  (1 <= i)%nat ->
  Forall (flat_maximum x) midpoints ->
  StronglySorted lt midpoints ->
  Forall (fun m => (m < i)%nat) midpoints ->
  Forall (flat_maximum x) (local_maxima_loop fuel x i i_max midpoints)
  /\ StronglySorted lt (local_maxima_loop fuel x i i_max midpoints).
Proof.
  revert i midpoints.
  induction fuel as [|fuel IH]; intros i midpoints Hi Hmax Hsorted Hlt; simpl.
  { done. }
  case_decide as Him; [|done].
  destruct (x !! (i - 1)%nat) as [prev|] eqn:Hprev; [|done].
  destruct (x !! i) as [cur|] eqn:Hcur; [|done].
  assert (Forall (fun m => (m < i + 1)%nat) midpoints) as Hlt1.
  { eapply Forall_impl; [done|]. simpl. lia. }
  destruct (Float.ltb prev cur) eqn:Hrise; [|apply IH; (done || lia)].
  destruct (plateau_scan_spec (length x) x cur (i + 1) i_max) as [Hge Heq].
  set (i_ahead := plateau_scan (length x) x cur (i + 1) i_max) in *.
  destruct (x !! i_ahead) as [nxt|] eqn:Hnxt; [|done].
  destruct (Float.ltb nxt cur) eqn:Hfall; [|apply IH; (done || lia)].
  assert (i <= (i + (i_ahead - 1)) / 2 /\ (i + (i_ahead - 1)) / 2 < i_ahead)%nat
    as [Hmlo Hmhi].
  { split.
    - apply Nat.div_le_lower_bound; lia.
    - apply Nat.Div0.div_lt_upper_bound. lia. }
  change (Nat.divmod (i + (i_ahead - 1)) 1 0 1).1
    with ((i + (i_ahead - 1)) / 2)%nat.
  apply IH.
  - lia.
  - apply Forall_app. split; [done|]. apply Forall_singleton.
    exists i, (i_ahead - 1)%nat, cur.
    pose proof (lookup_lt_Some _ _ _ Hnxt) as Hbound.
    replace (i_ahead - 1 + 1)%nat with i_ahead by lia.
    repeat split; try (done || lia); eauto.
    intros j Hj. apply Heq. lia.
  - apply StronglySorted_app_2; [|done|repeat constructor].
    intros m1 m2 Hm1 ->%list_elem_of_singleton.
    rewrite Forall_forall in Hlt. specialize (Hlt m1 Hm1). lia.
  - apply Forall_app. split.
    + eapply Forall_impl; [done|]. simpl. lia.
    + apply Forall_singleton. lia.
Qed.

Lemma find_peaks_spec x :
  Forall (flat_maximum x) (find_peaks x) /\ StronglySorted lt (find_peaks x).
Proof. apply local_maxima_loop_spec; (lia || constructor). Qed.

Lemma candidates_at_pos df vals peaks p :
  p ∈ candidates_at df vals peaks ->
  exists m, m ∈ peaks /\ index df !! m = Some p.1 /\ vals !! m = Some p.2.
Proof.
  unfold candidates_at. intros (m & Hm & Hp)%list_elem_of_omap.
  exists m. destruct (index df !! m), (vals !! m); simplify_eq/=. done.
Qed.

(** Every systolic peak returned is a sample of the series, with its own
    label and value, at the middle of a flat local maximum: never the first
    or the last sample, and with a strictly smaller sample on either side of
    its plateau. *)
Theorem sys_peaks_are_local_maxima (df : frame) vals only_sys p :
  columns df !! 0%nat = Some vals ->
  get_sys_bp df = Ok only_sys ->
  p ∈ only_sys ->
  exists m,
    flat_maximum vals m
    /\ (0 < m)%nat /\ (m + 1 < length vals)%nat
    /\ index df !! m = Some p.1 /\ vals !! m = Some p.2.
Proof.
  intros Hcol Hrun Hp.
  unfold get_sys_bp, sys_candidates, select_channel, values_col in Hrun.
  rewrite Hcol in Hrun. simpl in Hrun. injection Hrun as <-.
  rewrite pair_candidates_kept in Hp. apply kept_of_pairs_elem in Hp.
  apply candidates_at_pos in Hp as (m & Hm & Hidx & Hval).
  destruct (find_peaks_spec vals) as [Hmax _].
  rewrite Forall_forall in Hmax. specialize (Hmax m Hm).
  exists m. split; [done|].
  destruct Hmax as (l & r & v & Hl & Hlr & Hr & -> & _).
  assert (l <= (l + r) / 2 /\ (l + r) / 2 <= r)%nat as [? ?].
  { split.
    - apply Nat.div_le_lower_bound; lia.
    - apply Nat.Div0.div_le_upper_bound. lia. }
  repeat split; (done || lia).
Qed.

Lemma sys_peaks_are_local_maxima_witness :
  exists m,
    flat_maximum (Float.of_Z <$> [1; 5; 2; 7; 7; 1]) m
    /\ (0 < m)%nat /\ (m + 1 < 6)%nat.
Proof.
  edestruct (sys_peaks_are_local_maxima
               {| index := [0; 1; 2; 3; 4; 5];
                  columns := [Float.of_Z <$> [1; 5; 2; 7; 7; 1]] |}
               (Float.of_Z <$> [1; 5; 2; 7; 7; 1])
               [(3, Float.of_Z 7)] (3, Float.of_Z 7))
    as (m & Hmax & Hlo & Hhi & _);
    [reflexivity | vm_compute; reflexivity
    | apply list_elem_of_singleton; reflexivity |].
  exists m. repeat split; assumption.
Defined.








(** ** Peaks in order of position *)

Lemma candidates_at_sorted df vals peaks :
  StronglySorted Z.lt (index df) ->
  StronglySorted lt peaks ->
  StronglySorted Z.lt (candidates_at df vals peaks).*1.
Proof.
  intros Hidx. unfold candidates_at.
  induction 1 as [|m peaks Hs IH Hall]; simpl; [constructor|].
  destruct (index df !! m) as [a|] eqn:Ha; simpl; [|done].
  destruct (vals !! m) as [v|] eqn:Hv; simpl; [|done].
  constructor; [done|]. apply Forall_forall.
  intros b ([b' w] & -> & Hb)%list_elem_of_fmap.
  apply list_elem_of_omap in Hb as (m' & Hm' & Hb). simpl.
  destruct (index df !! m') as [a'|] eqn:Ha'; simpl in Hb; [|done].
  destruct (vals !! m'); simplify_eq/=.
  rewrite Forall_forall in Hall.
  eapply (StronglySorted_lookup_lt Z.lt (index df) m m'); eauto.
Qed.

(** On a frame whose index is increasing, the peaks either extractor
    returns are in strictly increasing order of position. *)
Theorem peaks_in_position_order (df : frame) only_sys only_dias :
  StronglySorted Z.lt (index df) ->
  get_sys_bp df = Ok only_sys ->
  get_dias_bp df = Ok only_dias ->
  StronglySorted Z.lt only_sys.*1 /\ StronglySorted Z.lt only_dias.*1.
Proof.
  intros Hidx.
  unfold get_sys_bp, get_dias_bp, sys_candidates, dias_candidates.
  destruct (select_channel df) as [vals|]; simpl; [|done].
  intros [= <-] [= <-]. rewrite !pair_candidates_kept.
  split.
  - eapply StronglySorted_sublist;
      [apply fmap_sublist, kept_of_pairs_sublist|].
    apply candidates_at_sorted; [done|apply find_peaks_spec].
  - eapply StronglySorted_sublist;
      [apply fmap_sublist, kept_of_pairs_sublist|].
    apply candidates_at_sorted; [done|apply find_peaks_spec].
Qed.

Lemma peaks_in_position_order_witness :
  StronglySorted Z.lt [10; 70] /\ StronglySorted Z.lt [20].
Proof.
  apply (peaks_in_position_order
           {| index := [0; 10; 20; 30; 40; 50; 60; 70; 80; 90];
              columns := [Float.of_Z <$> [1; 5; 2; 4; 1; 7; 3; 8; 6; 1]] |}
           [(10, Float.of_Z 5); (70, Float.of_Z 8)]
           [(20, Float.of_Z 2)]).
  - apply (bool_decide_unpack _). vm_compute. reflexivity.
  - vm_compute. reflexivity.
  - vm_compute. reflexivity.
Defined.

(** ** A table without gaps loses no window *)

Lemma loc_ts_present lo hi label df s :
  s ∈ df -> s_label s = label -> lo <= label <= hi ->
  is_Some (loc_ts label (loc_slice lo hi df)).
Proof.
  intros Hin Hl Hrange. unfold loc_ts. apply fmap_is_Some.
  apply (list_find_elem_of _ _ s); [|done].
  apply list_elem_of_filter. split; [lia|done].
Qed.

Lemma window_summary_present df first time_chunk cur s0 s1 :
  head df = Some first ->
  0 <= time_chunk ->
  s0 ∈ df -> s_label s0 = cur - time_chunk ->
  s1 ∈ df -> s_label s1 = cur ->
  exists w, window_summary df time_chunk cur = Ok (Some w).
Proof.
  intros Hfirst Hchunk Hin0 Hl0 Hin1 Hl1. unfold window_summary.
  rewrite get_sys_bp_channel, get_dias_bp_channel. simpl.
  unfold first_wave. rewrite Hfirst. simpl.
  destruct (loc_ts_present (cur - time_chunk) cur (cur - time_chunk) df s0)
    as [t0 ->]; [done|done|lia|].
  destruct (loc_ts_present (cur - time_chunk) cur cur df s1)
    as [t1 ->]; [done|done|lia|].
  eauto.
Qed.

Lemma window_loop_every df time_chunk windows new_df :
  (forall cur, cur ∈ windows ->
     exists w, window_summary df time_chunk cur = Ok (Some w)) ->
  exists added,
    window_loop df time_chunk windows new_df = Ok (new_df ++ added)
    /\ w_end_window <$> added = windows.
Proof.
  revert new_df. induction windows as [|cur rest IH]; intros new_df Hall; simpl.
  - exists []. by rewrite app_nil_r.
  - destruct (Hall cur) as [w Hw]; [left|]. rewrite Hw. simpl.
    destruct (IH (new_df ++ [w])) as (added & -> & Hends).
    { intros c Hc. apply Hall. by right. }
    exists (w :: added). rewrite <- app_assoc. split; [done|].
    apply window_summary_Some in Hw as (_ & Hend & _).
    by rewrite fmap_cons, Hend, Hends.
Qed.

Lemma label_rows_end_window new_df :
  end_window <$> label_rows new_df = w_end_window <$> new_df.
Proof.
  apply list_eq. intros i. rewrite !list_lookup_fmap, label_rows_lookup.
  by destruct (new_df !! i).
Qed.

(** The rows of a table without gaps, one for each window position. *)
Lemma gapless_rows df time_chunk time_window first final :
  gapless df ->
  head df = Some first -> last df = Some final ->
  0 <= time_chunk -> 0 < time_window ->
  s_label first + samples_of time_chunk < s_label final ->
  exists tbl,
    avg_bp df time_chunk time_window = Ok (Some tbl)
    /\ end_window <$> sd_rows tbl
       = (fun k => s_label first + samples_of time_chunk
                   + samples_of time_window * Z.of_nat k)
         <$> seq 0 (Z.to_nat ((s_label final - s_label first
                               - samples_of time_chunk
                               + samples_of time_window - 1)
                              `div` samples_of time_window)).
Proof.
  intros Hgap Hfirst Hlast Hchunk Hstep Hlong.
  pose proof (samples_of_exact time_chunk) as Hc.
  pose proof (samples_of_exact time_window) as Hw.
  destruct (py_range_total (s_label first + samples_of time_chunk)
              (s_label final) (samples_of time_window)) as [ws Hws]; [lia|].
  destruct (window_loop_every df (samples_of time_chunk) ws []) as
    (added & Hloop & Hends).
  { intros cur Hcur.
    destruct (py_range_elem _ _ _ _ _ Hws Hcur) as (k & _ & Hbound).
    specialize (Hbound ltac:(lia)).
    destruct (Hgap first final (cur - samples_of time_chunk))
      as (s0 & Hin0 & Hl0); [done|done|lia|].
    destruct (Hgap first final cur) as (s1 & Hin1 & Hl1); [done|done|lia|].
    by eapply (window_summary_present df first _ cur s0 s1); [|lia|..]. }
  assert (ws = (fun k => s_label first + samples_of time_chunk
                   + samples_of time_window * Z.of_nat k)
         <$> seq 0 (Z.to_nat ((s_label final - s_label first
                               - samples_of time_chunk
                               + samples_of time_window - 1)
                              `div` samples_of time_window))) as Hexplicit.
  { unfold py_range in Hws. rewrite decide_False in Hws by lia.
    rewrite decide_True in Hws by lia. injection Hws as <-.
    do 4 f_equal. lia. }
  assert (ws <> []) as Hne.
  { rewrite Hexplicit. intros Hnil%fmap_nil_inv.
    assert (1 <= (s_label final - s_label first - samples_of time_chunk
                  + samples_of time_window - 1) `div` samples_of time_window)
      by (apply Z.div_le_lower_bound; lia).
    destruct (Z.to_nat _) eqn:E; [lia|done]. }
  exists {| sd_rows := label_rows added; sd_cols := ∅ |}. split.
  - unfold avg_bp, window_ends. rewrite Hfirst, Hlast, Hws. simpl.
    rewrite Hloop. simpl. destruct added; [|done]. by subst ws.
  - simpl. by rewrite label_rows_end_window, Hends.
Qed.

(** On a table without gaps, with a chunk duration that is not negative, a
    positive step and a last label beyond the first window, the aggregator
    returns a table with one row for every window position
    [first + chunk + k * step] below the last label, none skipped. *)
Theorem gapless_table_row_per_window df time_chunk time_window first final :
  gapless df ->
  head df = Some first -> last df = Some final ->
  0 <= time_chunk -> 0 < time_window ->
  s_label first + samples_of time_chunk < s_label final ->
  exists tbl,
    avg_bp df time_chunk time_window = Ok (Some tbl)
    /\ end_window <$> sd_rows tbl
       = (fun k => s_label first + samples_of time_chunk
                   + samples_of time_window * Z.of_nat k)
         <$> seq 0 (Z.to_nat ((s_label final - s_label first
                               - samples_of time_chunk
                               + samples_of time_window - 1)
                              `div` samples_of time_window)).
Proof. apply gapless_rows. Qed.

Lemma loaded_gapless vals : gapless (loaded vals).
Proof.
  intros first final label Hfirst Hlast Hrange.
  assert (forall i s, loaded vals !! i = Some s -> s_label s = Z.of_nat i)
    as Hlabel.
  { intros i s. unfold loaded, waveform. rewrite list_lookup_imap.
    destruct (vals !! i); simpl; [|done]. by intros [= <-]. }
  assert (s_label first = 0) as E0.
  { rewrite (Hlabel 0%nat first); [done|].
    rewrite <- Hfirst. symmetry. apply head_lookup. }
  assert (s_label final = Z.of_nat (pred (length (loaded vals)))) as E1.
  { apply Hlabel. rewrite <- Hlast. symmetry. apply last_lookup. }
  destruct (lookup_lt_is_Some_2 (loaded vals) (Z.to_nat label)) as [s Hs].
  { destruct (loaded vals); simpl in *; [done|lia]. }
  exists s. split; [by eapply list_elem_of_lookup_2|].
  rewrite (Hlabel _ _ Hs). lia.
Qed.

Lemma gapless_table_row_per_window_witness :
  exists tbl,
    avg_bp (loaded (beat <$> seq 0 400)) 1 1 = Ok (Some tbl)
    /\ end_window <$> sd_rows tbl = [125; 250; 375].
Proof.
  edestruct (gapless_table_row_per_window (loaded (beat <$> seq 0 400)) 1 1)
    as (tbl & Hrun & Hends);
    [ apply loaded_gapless | vm_compute; reflexivity | vm_compute; reflexivity
    | lia | lia | vm_compute; reflexivity | ].
  exists tbl. split; [exact Hrun|]. rewrite Hends. vm_compute. reflexivity.
Defined.

(** ** From the samples to the spacing check *)





(** ** The wave id of the rows *)

Lemma window_summary_wave df time_chunk cur w :
  window_summary df time_chunk cur = Ok (Some w) ->
  s_wave <$> head df = Some (w_wave w).
Proof.
  unfold window_summary. rewrite get_sys_bp_channel, get_dias_bp_channel.
  simpl. unfold first_wave. destruct (head df) as [first|]; simpl; [|done].
  repeat case_match; try done. by intros [= <-].
Qed.

(** Every row of the table carries the wave id of the first sample of the
    whole recording, not of its own window: a table that holds several
    waves is summarised under the first one. *)
Theorem rows_carry_first_wave df time_chunk time_window tbl first i r :
  avg_bp df time_chunk time_window = Ok (Some tbl) ->
  head df = Some first ->
  sd_rows tbl !! i = Some r ->
  wave r = s_wave first.
Proof.
  intros Havg Hfirst Hr.
  destruct (avg_bp_row _ _ _ _ _ _ Havg Hr)
    as (windows & new_df & w & cur & _ & _ & _ & -> & _ & Hs).
  apply window_summary_wave in Hs. rewrite Hfirst in Hs.
  simpl in *. by injection Hs as ->.
Qed.

Lemma rows_carry_first_wave_witness :
  exists r,
    sd_rows example_summary !! 9%nat = Some r /\ wave r = "a40439".
Proof.
  eexists. split; [vm_compute; reflexivity|].
  apply (rows_carry_first_wave example_waveform 1 1 example_summary
           {| s_label := 0; s_wave := "a40439"; s_abp := beat 0; s_ts := 0 |}
           9);
    [apply example_summary_run | vm_compute; reflexivity
    | vm_compute; reflexivity].
Defined.

(** ** Instances of the error cases *)

Lemma avg_bp_raises_iff_witness :
  avg_bp (loaded (replicate 300 (Float.of_Z 90))) 1 0 = Raise ValueError.
Proof.
  apply (avg_bp_raises_iff (loaded (replicate 300 (Float.of_Z 90))) 1 0).
  right. split; [discriminate|]. split; reflexivity.
Defined.

Lemma create_lookback_raises_iff_witness :
  create_lookback
    (example_table
       [example_row 0 (Float.of_Z 120) (Float.of_Z 75) (Float.of_Z 90) 0
          Float.NaN]) 10
  = Raise IndexError.
Proof.
  apply (create_lookback_raises_iff
           (example_table
              [example_row 0 (Float.of_Z 120) (Float.of_Z 75) (Float.of_Z 90) 0
                 Float.NaN]) 10).
  left. split; [simpl; lia | reflexivity].
Defined.

Lemma merge_df_needs_equal_ids_witness :
  merge_df start_window start_window "a40439" "a40440"
    (sd_rows five_minute_table) (sd_rows two_minute_table)
  = (["mismatch ids a40439 - a40440"], UnboundLocalError).
Proof.
  apply (merge_df_needs_equal_ids start_window start_window
           "a40439" "a40440" (sd_rows five_minute_table)
           (sd_rows two_minute_table)).
  discriminate.
Defined.

Lemma merge_df_rows_witness :
  exists final_df,
    merge_df start_window start_window "a40439" "a40439"
      (sd_rows five_minute_table) (sd_rows two_minute_table)
    = ([], Merged final_df)
    /\ (example_row 0 (Float.of_Z 20) (Float.of_Z 5) (Float.of_Z 10) 1
          Float.NaN,
        example_row 0 (Float.of_Z 120) (Float.of_Z 75) (Float.of_Z 90) 0
          Float.NaN,
        "a40439") ∈ final_df.
Proof.
  destruct (merge_df_rows start_window start_window "a40439"
              (sd_rows five_minute_table) (sd_rows two_minute_table))
    as (final_df & Hrun & Hrows).
  exists final_df. split; [exact Hrun|].
  apply Hrows. split; [left|]. split; [left|]. split; reflexivity.
Defined.
